(** * TrustAid chat front end: conversation controller, fallback-text
      formatter and demo responder

    The repository holds two revisions of the React front end:
    - [src/trustaid-frontend/src/App.tsx], the floating assistant widget
      (module [AppTsx]);
    - [src/unnamed/part_002], the full-page chat console (module [Part002]).

    Both are embedded below, function by function, over a small model of the
    JavaScript values they manipulate (module [JS]).  The declarations that
    are the same in the two files are embedded once (module [Common]). *)

From Stdlib Require Import List NArith ZArith QArith Bool String Ascii Lia.
Import ListNotations.

Close Scope Q_scope.

(* ================================================================== *)
(** * The JavaScript fragment used by the program *)
(* ================================================================== *)

Module JS.

(** ** Strings

    A JavaScript string is a sequence of UTF-16 code units. *)

Definition jsstring := list N.

(** String literals of the source are written as Rocq strings, which hold
    the UTF-8 bytes of the literal; [utf8_decode] turns them into code
    units (a code point above the BMP becomes a surrogate pair). *)

Fixpoint utf8_decode (bs : list N) : jsstring :=
  match bs with
  | [] => []
  | b0 :: t0 =>
    if (b0 <? 128)%N then b0 :: utf8_decode t0
    else
      match t0 with
      | [] => []
      | b1 :: t1 =>
        if (b0 <? 224)%N
        then ((b0 - 192) * 64 + (b1 - 128))%N :: utf8_decode t1
        else
          match t1 with
          | [] => []
          | b2 :: t2 =>
            if (b0 <? 240)%N
            then ((b0 - 224) * 4096 + (b1 - 128) * 64 + (b2 - 128))%N
                   :: utf8_decode t2
            else
              match t2 with
              | [] => []
              | b3 :: t3 =>
                let v := ((b0 - 240) * 262144 + (b1 - 128) * 4096
                          + (b2 - 128) * 64 + (b3 - 128) - 65536)%N in
                (55296 + v / 1024)%N :: (56320 + v mod 1024)%N
                  :: utf8_decode t3
              end
          end
      end
  end.

Definition u16 (s : string) : jsstring :=
  utf8_decode (map N_of_ascii (list_ascii_of_string s)).

Arguments u16 s%_string.

Definition eqb_str (a b : jsstring) : bool :=
  if list_eq_dec N.eq_dec a b then true else false.

(** [Number::toString] of a non-negative integer (array indices, HTTP
    status codes): its decimal numeral. *)

Fixpoint uint_digits (d : Decimal.uint) : jsstring :=
  match d with
  | Decimal.Nil => []
  | Decimal.D0 r => 48%N :: uint_digits r
  | Decimal.D1 r => 49%N :: uint_digits r
  | Decimal.D2 r => 50%N :: uint_digits r
  | Decimal.D3 r => 51%N :: uint_digits r
  | Decimal.D4 r => 52%N :: uint_digits r
  | Decimal.D5 r => 53%N :: uint_digits r
  | Decimal.D6 r => 54%N :: uint_digits r
  | Decimal.D7 r => 55%N :: uint_digits r
  | Decimal.D8 r => 56%N :: uint_digits r
  | Decimal.D9 r => 57%N :: uint_digits r
  end.

Definition decimal (n : nat) : jsstring := uint_digits (Nat.to_uint n).

(** [Array.prototype.join] on strings. *)

Fixpoint join (sep : jsstring) (parts : list jsstring) : jsstring :=
  match parts with
  | [] => []
  | [p] => p
  | p :: rest => p ++ sep ++ join sep rest
  end.

(** ** [String.prototype.trim]

    Strips the code units of the WhiteSpace and LineTerminator productions
    from both ends. *)

Definition isWhiteSpace (c : N) : bool :=
  ((c =? 9) || (c =? 10) || (c =? 11) || (c =? 12) || (c =? 13)
   || (c =? 32) || (c =? 160) || (c =? 5760)
   || ((8192 <=? c) && (c <=? 8202))
   || (c =? 8232) || (c =? 8233) || (c =? 8239) || (c =? 8287)
   || (c =? 12288) || (c =? 65279))%N.

Fixpoint trimStart (s : jsstring) : jsstring :=
  match s with
  | [] => []
  | c :: r => if isWhiteSpace c then trimStart r else s
  end.

Definition trimEnd (s : jsstring) : jsstring := rev (trimStart (rev s)).

Definition trim (s : jsstring) : jsstring := trimEnd (trimStart s).

(** ** Regular expressions

    The two patterns of the program use literals, [\d], alternation and
    [+], under the [i] flag and without the [u] flag.  [RegExp.prototype.test]
    on a pattern without anchors asks whether some substring of the subject
    belongs to the language of the pattern; it is computed here with
    derivatives. *)

Inductive regex : Type :=
| Fail
| Eps
| Chr (c : N)
| Digit
| Seq (r s : regex)
| Alt (r s : regex)
| Star (r : regex).

Definition Plus (r : regex) : regex := Seq r (Star r).

Fixpoint lit (s : jsstring) : regex :=
  match s with
  | [] => Eps
  | c :: rest => Seq (Chr c) (lit rest)
  end.

Fixpoint alts (rs : list regex) : regex :=
  match rs with
  | [] => Fail
  | [r] => r
  | r :: rest => Alt r (alts rest)
  end.

(** Canonicalize of the [i] flag (no [u] flag): the upper-case mapping of a
    single code unit, except that a code unit at or above 128 is never
    mapped below 128.  Every pattern character of this program is ASCII, so
    the mapping is only ever compared with an ASCII value: a code unit
    outside ASCII is left as it is, which gives the same comparisons. *)

Definition Canonicalize (c : N) : N :=
  if ((97 <=? c) && (c <=? 122))%N then (c - 32)%N else c.

Definition isDigit (c : N) : bool := ((48 <=? c) && (c <=? 57))%N.

Fixpoint nullable (r : regex) : bool :=
  match r with
  | Fail => false
  | Eps => true
  | Chr _ => false
  | Digit => false
  | Seq r s => nullable r && nullable s
  | Alt r s => nullable r || nullable s
  | Star _ => true
  end.

Definition mkSeq (r s : regex) : regex :=
  match r with
  | Fail => Fail
  | Eps => s
  | _ => Seq r s
  end.

Definition mkAlt (r s : regex) : regex :=
  match r, s with
  | Fail, _ => s
  | _, Fail => r
  | _, _ => Alt r s
  end.

Fixpoint deriv (x : N) (r : regex) : regex :=
  match r with
  | Fail => Fail
  | Eps => Fail
  | Chr c => if (Canonicalize x =? Canonicalize c)%N then Eps else Fail
  | Digit => if isDigit x then Eps else Fail
  | Seq r s =>
      mkAlt (mkSeq (deriv x r) s) (if nullable r then deriv x s else Fail)
  | Alt r s => mkAlt (deriv x r) (deriv x s)
  | Star r => mkSeq (deriv x r) (Star r)
  end.

(** Does some prefix of [s] match [r]? *)
Fixpoint matchPrefix (r : regex) (s : jsstring) : bool :=
  nullable r ||
  match s with
  | [] => false
  | x :: s' => matchPrefix (deriv x r) s'
  end.

(** [r.test(s)]: does a match start at some position of [s]? *)
Fixpoint test (r : regex) (s : jsstring) : bool :=
  matchPrefix r s ||
  match s with
  | [] => false
  | _ :: s' => test r s'
  end.

(** The language of a pattern, as the ECMAScript semantics defines it for
    this fragment. *)
Inductive lang : regex -> jsstring -> Prop :=
| lang_eps : lang Eps []
| lang_chr c x : Canonicalize x = Canonicalize c -> lang (Chr c) [x]
| lang_digit x : isDigit x = true -> lang Digit [x]
| lang_seq r s u v : lang r u -> lang s v -> lang (Seq r s) (u ++ v)
| lang_alt_l r s u : lang r u -> lang (Alt r s) u
| lang_alt_r r s u : lang s u -> lang (Alt r s) u
| lang_star_nil r : lang (Star r) []
| lang_star_cons r u v : lang r u -> lang (Star r) v -> lang (Star r) (u ++ v).

(** ** Values

    The payload that reaches the front end is whatever [res.json()]
    produced, typed [any]: it is modelled as an untyped value.  Numbers are
    the finite numbers JSON can carry; none of the functions below does
    arithmetic on them.  An object lists its own properties in creation
    order. *)

#[warnings="-register-all"] Inductive value : Type :=
| VUndefined
| VNull
| VBool (b : bool)
| VNum (q : Q)
| VStr (s : jsstring)
| VArr (xs : list value)
| VObj (props : list (jsstring * value)).

Definition str (s : string) : value := VStr (u16 s).
Arguments str s%_string.

(** Object literal with the keys written as source text. *)
Definition obj (props : list (string * value)) : value :=
  VObj (map (fun kv => (u16 (fst kv), snd kv)) props).

(** A computation that may throw a [TypeError]. *)
Inductive result (A : Type) : Type :=
| Ok (a : A)
| TypeError.
Arguments Ok {A} a.
Arguments TypeError {A}.

Definition bind {A B : Type} (m : result A) (k : A -> result B) : result B :=
  match m with
  | Ok a => k a
  | TypeError => TypeError
  end.

Notation "x <- m ;; k" := (bind m (fun x => k))
  (at level 61, m at next level, right associativity).

(** [xs.map((x, i) => f(x, i))] where [f] may throw; [i] counts from [start]. *)
Fixpoint mapi_from {A B : Type} (start : nat) (f : A -> nat -> result B)
    (xs : list A) : result (list B) :=
  match xs with
  | [] => Ok []
  | x :: rest =>
      y <- f x start ;;
      ys <- mapi_from (S start) f rest ;;
      Ok (y :: ys)
  end.

Definition mapi {A B : Type} (f : A -> nat -> result B) (xs : list A) :
    result (list B) :=
  mapi_from 0 f xs.

(** ToBoolean. *)
Definition truthy (v : value) : bool :=
  match v with
  | VUndefined | VNull => false
  | VBool b => b
  | VNum q => negb (Qnum q =? 0)%Z
  | VStr s => match s with [] => false | _ => true end
  | VArr _ | VObj _ => true
  end.

(** [a || b] *)
Definition or_else (a b : value) : value := if truthy a then a else b.

(** [v === "literal"] *)
Definition is_string (v : value) (s : jsstring) : bool :=
  match v with
  | VStr t => eqb_str t s
  | _ => false
  end.

Fixpoint lookup (k : jsstring) (props : list (jsstring * value)) : option value :=
  match props with
  | [] => None
  | (k', v) :: rest => if eqb_str k' k then Some v else lookup k rest
  end.

Definition own (props : list (jsstring * value)) (k : jsstring) : value :=
  match lookup k props with
  | Some v => v
  | None => VUndefined
  end.

(** [v.k] for the property names this program reads ([kind], [answer],
    [steps], [title], [columns], [rows]): none of them is a built-in
    property of a primitive wrapper, of an array or of [Object.prototype],
    so only an object can hold one; reading from [null] or [undefined]
    throws. *)
Definition get (v : value) (k : jsstring) : result value :=
  match v with
  | VUndefined | VNull => TypeError
  | VObj props => Ok (own props k)
  | _ => Ok VUndefined
  end.

(** [v?.k] *)
Definition get_opt (v : value) (k : jsstring) : value :=
  match v with
  | VObj props => own props k
  | _ => VUndefined
  end.

(** [v[i]] for an array index [i]. *)
Definition get_index (v : value) (i : nat) : result value :=
  match v with
  | VUndefined | VNull => TypeError
  | VArr xs => Ok (nth i xs VUndefined)
  | VStr s => Ok (match nth_error s i with
                  | Some c => VStr [c]
                  | None => VUndefined
                  end)
  | VObj props => Ok (own props (decimal i))
  | _ => Ok VUndefined
  end.

(** Receiver of [.map(...)] and [.forEach(...)]: among the values above
    only arrays have these methods; calling them on anything else throws
    ("is not a function", or a property read on [null]/[undefined]). *)
Definition array_of (v : value) : result (list value) :=
  match v with
  | VArr xs => Ok xs
  | _ => TypeError
  end.

(** [o[k] = v] on an object created by [{}]: the value of an existing
    property is replaced, a new property is added last.  Assigning to
    [__proto__] goes to the setter of [Object.prototype] and creates no own
    property. *)
Fixpoint replace (k : jsstring) (v : value) (props : list (jsstring * value)) :
    list (jsstring * value) :=
  match props with
  | [] => []
  | (k', v') :: rest =>
      if eqb_str k' k then (k', v) :: rest else (k', v') :: replace k v rest
  end.

Definition set (props : list (jsstring * value)) (k : jsstring) (v : value) :
    list (jsstring * value) :=
  if eqb_str k (u16 "__proto__") then props
  else match lookup k props with
       | Some _ => replace k v props
       | None => props ++ [(k, v)]
       end.

(** ** The host

    Two built-ins depend on the engine and on the locale of the browser:
    [Number::toString] on an arbitrary number and
    [new Intl.NumberFormat().format]. *)

Class Host : Type := {
  Number_toString : Q -> jsstring;
  NumberFormat_format : Q -> jsstring
}.

Section WithHost.
Context {host : Host}.

(** ToString, as applied by template literals, [String(v)] and property
    keys. *)
Fixpoint ToString (v : value) : jsstring :=
  match v with
  | VUndefined => u16 "undefined"
  | VNull => u16 "null"
  | VBool true => u16 "true"
  | VBool false => u16 "false"
  | VNum q => Number_toString q
  | VStr s => s
  | VArr xs =>
      join (u16 ",")
        (map (fun x => match x with
                       | VUndefined | VNull => []
                       | _ => ToString x
                       end) xs)
  | VObj _ => u16 "[object Object]"
  end.

End WithHost.

(** A host for evaluating examples: integers in plain decimal, without
    grouping; the fractional part is dropped. *)
Definition plain_number (q : Q) : jsstring :=
  let z := (Qnum q / Zpos (Qden q))%Z in
  ((if (z <? 0)%Z then u16 "-" else []) ++ decimal (Z.abs_nat z))%list.

Definition plainHost : Host :=
  {| Number_toString := plain_number; NumberFormat_format := plain_number |}.

End JS.

(* ================================================================== *)
(** * Declarations common to the two revisions *)
(* ================================================================== *)

Module Common.
Import JS.

Local Open Scope list_scope.

(** ** Types *)

Inductive Role : Type := user | assistant | system.

Record ChatItem : Type := {
  role : Role;
  content : value;
  payload : option value
}.

Inductive PipelinePref : Type := auto | navigator | trustbot.

Definition prefName (p : PipelinePref) : jsstring :=
  match p with
  | auto => u16 "auto"
  | navigator => u16 "navigator"
  | trustbot => u16 "trustbot"
  end.

Definition nl : jsstring := [10%N].

(** ** Helpers *)

Section Helpers.
Context {host : Host}.

Definition formatCell (val : value) : jsstring :=
  match val with
  | VNull | VUndefined => u16 "—"
  | VNum q => NumberFormat_format q
  | _ => ToString val
  end.

(** [columns.forEach((c, i) => (o[c] = r[i]))], threading the object [o]. *)
Fixpoint forEach_from (start : nat) (r : value) (cs : list value)
    (o : list (jsstring * value)) : result (list (jsstring * value)) :=
  match cs with
  | [] => Ok o
  | c :: rest =>
      cell <- get_index r start ;;
      forEach_from (S start) r rest (set o (ToString c) cell)
  end.

Definition rowsToObjects (table : value) : result value :=
  if negb (truthy (get_opt table (u16 "columns")))
     || negb (truthy (get_opt table (u16 "rows")))
  then Ok (VArr [])
  else
    rows <- get table (u16 "rows") ;;
    rs <- array_of rows ;;
    os <- mapi (fun r _ =>
                  columns <- get table (u16 "columns") ;;
                  cs <- array_of columns ;;
                  o <- forEach_from 0 r cs [] ;;
                  Ok (VObj o)) rs ;;
    Ok (VArr os).

End Helpers.

(** ** Component state and effects

    The component state is made explicit.  A call of [send] is modelled by
    the list of effects it performs, in program order: state setters and
    the one outbound call.  The answers of the outside world to that call
    are inputs of the model. *)

Record State : Type := mkState {
  apiBase : jsstring;
  demoMode : bool;
  pipelinePref : PipelinePref;
  busy : bool;
  error : option jsstring;
  query : jsstring;
  messages : list ChatItem
}.

(** A thrown value, as far as the [catch] clause looks at it: [e.message]. *)
Record exn : Type := { message : jsstring }.

(** What [fetch] and [res.json()] may answer. *)
Inductive FetchOutcome : Type :=
| Rejected (e : exn)
| Response (status : nat) (json : exn + value).

(** [res.ok] *)
Definition ok (status : nat) : bool := (200 <=? status)%nat && (status <=? 299)%nat.

(** The outbound call of one [send]: the demo responder on the query text,
    or a POST of [JSON.stringify(body)] to [url]. *)
Inductive Request : Type :=
| Demo (q : jsstring)
| Fetch (url : jsstring) (body : value).

(** [setMessages] is always called with an updater [m => [...m, items]];
    the items are computed when React runs the updater, and computing them
    may throw. *)
Inductive effect : Type :=
| setError (e : option jsstring)
| setQuery (q : jsstring)
| setMessages (items : result (list ChatItem))
| setBusy (b : bool)
| dispatch (r : Request).

Definition userItem (text : jsstring) : ChatItem :=
  {| role := user; content := VStr text; payload := None |}.

Definition errorItem : ChatItem :=
  {| role := assistant;
     content := str "Sorry, something went wrong. Please try again.";
     payload := Some (obj [("kind", str "error")]%string) |}.

(** The request body [{ query, force_kind? }]. *)
Definition requestBody (text : jsstring) (pref : PipelinePref) : value :=
  obj (("query"%string, VStr text)
       :: match pref with
          | auto => []
          | p => [("force_kind"%string, VStr (prefName p))]
          end).

(** [e.message || "Request failed"] *)
Definition failureMessage (e : exn) : jsstring :=
  match message e with
  | [] => u16 "Request failed"
  | m => m
  end.

(** The [catch] clause. *)
Definition onThrow (e : exn) : list effect :=
  [setError (Some (failureMessage e)); setMessages (Ok [errorItem])].

(** The live branch of the [try] block, up to the point where [data] is
    available: [fetch], the [res.ok] check and [res.json()]. *)
Definition live (st : State) (text : jsstring) (fetched : FetchOutcome)
    (onData : value -> list effect) : list effect :=
  dispatch (Fetch (apiBase st ++ u16 "/chat/query")
                  (requestBody text (pipelinePref st)))
  :: match fetched with
     | Rejected e => onThrow e
     | Response status json =>
         if negb (ok status)
         then onThrow {| message := u16 "HTTP " ++ decimal status |}
         else match json with
              | inl e => onThrow e
              | inr data => onData data
              end
     end.

(** The statements between the guard and the [try] block. *)
Definition prologue (text : jsstring) : list effect :=
  [setError None; setQuery []; setMessages (Ok [userItem text]); setBusy true].

(** Effect of one setter on the state.  An updater that throws does so
    while React renders, after [send] has left its [try] block: nothing
    catches it and the component tree is lost ([None]). *)
Definition apply (e : effect) (st : State) : option State :=
  match e with
  | setError x =>
      Some (mkState (apiBase st) (demoMode st) (pipelinePref st) (busy st)
                    x (query st) (messages st))
  | setQuery q =>
      Some (mkState (apiBase st) (demoMode st) (pipelinePref st) (busy st)
                    (error st) q (messages st))
  | setMessages (Ok items) =>
      Some (mkState (apiBase st) (demoMode st) (pipelinePref st) (busy st)
                    (error st) (query st) (messages st ++ items))
  | setMessages TypeError => None
  | setBusy b =>
      Some (mkState (apiBase st) (demoMode st) (pipelinePref st) b
                    (error st) (query st) (messages st))
  | dispatch _ => Some st
  end.

Fixpoint run (es : list effect) (st : State) : option State :=
  match es with
  | [] => Some st
  | e :: rest =>
      match apply e st with
      | Some st' => run rest st'
      | None => None
      end
  end.

(** The outbound calls among a list of effects. *)
Fixpoint requests (es : list effect) : list Request :=
  match es with
  | [] => []
  | dispatch r :: rest => r :: requests rest
  | _ :: rest => requests rest
  end.

(** The transcript entries a list of effects appends. *)
Fixpoint appended (es : list effect) : list ChatItem :=
  match es with
  | [] => []
  | setMessages (Ok items) :: rest => items ++ appended rest
  | _ :: rest => appended rest
  end.

(** ** Rendering dispatch

    The components return JSX; of an element only the choice among the
    alternatives of the source is kept: which component is rendered, and
    with which props. *)

Inductive CardView : Type :=
| FallbackOnly (fallback : value)
| NavigatorAnswer (data : value)
| TrustbotAnswer (data : value)
| RawDump (fallback : value) (payload : value).

Definition AssistantCard (payload fallback : value) : CardView :=
  if negb (truthy payload) || is_string (get_opt payload (u16 "kind")) (u16 "error")
  then FallbackOnly fallback
  else if is_string (get_opt payload (u16 "kind")) (u16 "navigator")
  then NavigatorAnswer payload
  else if is_string (get_opt payload (u16 "kind")) (u16 "trustbot")
  then TrustbotAnswer payload
  else RawDump fallback payload.

Section TableView.
Context {host : Host}.


End TableView.

(** [item.payload], [undefined] when the property is absent. *)
Definition payloadOf (item : ChatItem) : value :=
  match payload item with
  | Some v => v
  | None => VUndefined
  end.

End Common.

(* ================================================================== *)
(** * [src/trustaid-frontend/src/App.tsx]: the assistant widget *)
(* ================================================================== *)

Module AppTsx.
Import JS Common.

Local Open Scope list_scope.

Section Helpers.
Context {host : Host}.

Definition formatAssistantText (data : value) : result value :=
  if is_string (get_opt data (u16 "kind")) (u16 "navigator") then
    answer <- get data (u16 "answer") ;;
    let title := or_else answer (str "Here are the recommended steps:") in
    steps0 <- get data (u16 "steps") ;;
    xs <- array_of (or_else steps0 (VArr [])) ;;
    steps <- mapi (fun s i =>
                     t <- get s (u16 "title") ;;
                     Ok (decimal (i + 1) ++ u16 ". " ++ ToString t)) xs ;;
    Ok (VStr (ToString title ++ nl ++ join nl steps))
  else if is_string (get_opt data (u16 "kind")) (u16 "trustbot") then
    answer <- get data (u16 "answer") ;;
    Ok (or_else answer (str "Here are the results with SQL shown."))
  else Ok (VStr []).

End Helpers.

(** ** Demo mock

    [genId()] draws on [Math.random] and the clock; its result is an input
    of the model. *)

Definition reBereavement : regex :=
  alts [lit (u16 "die"); lit (u16 "passed away"); lit (u16 "bereave");
        lit (u16 "death")].

Definition mockResponse (q : jsstring) (genId : jsstring) : value :=
  let isBereavement := test reBereavement q in
  if isBereavement then
    obj [("kind", str "navigator");
         ("answer", str "I’m sorry for your loss. Here is a simple plan after a death:");
         ("steps", VArr [
            obj [("title", str "Register the death");
                 ("link", str "https://www.servicesaustralia.gov.au/when-someone-dies")];
            obj [("title", str "Organise the funeral");
                 ("link", str "https://www.service.nsw.gov.au/death-and-bereavement")];
            obj [("title", str "Notify people and organisations")]]);
         ("evidence", VArr [
            obj [("title", str "When someone dies — Services Australia");
                 ("url", str "https://www.servicesaustralia.gov.au/when-someone-dies");
                 ("updated_at", str "2025-06-01")];
            obj [("title", str "Death and bereavement — Service NSW");
                 ("url", str "https://www.service.nsw.gov.au/");
                 ("updated_at", str "2025-05-12")]]);
         ("confidence", obj [("level", str "high"); ("score", VNum 0.86)]);
         ("audit_id", VStr genId)]%string
  else
    obj [("kind", str "navigator");
         ("answer", str "Here’s what to do:");
         ("steps", VArr [
            obj [("title", str "Check eligibility")];
            obj [("title", str "Prepare documents")];
            obj [("title", str "Apply online")]]);
         ("evidence", VArr []);
         ("confidence", obj [("level", str "medium"); ("score", VNum 0.6)]);
         ("audit_id", VStr genId)]%string.

(** ** The assistant widget *)

Definition greeting : ChatItem :=
  {| role := assistant;
     content := VStr (u16 "Hello, I’m your virtual assistant." ++ nl ++ nl
                      ++ u16 "Think of me as your guide to government services—from payments and health support to local events and everyday needs."
                      ++ nl ++ nl ++ u16 "How can I help you today?");
     payload := None |}.

(** State of a freshly mounted widget, given the three stored settings. *)
Definition initial (api : jsstring) (demo : bool) (pref : PipelinePref) : State :=
  {| apiBase := api; demoMode := demo; pipelinePref := pref;
     busy := false; error := None; query := []; messages := [greeting] |}.

Record World : Type := {
  genId : jsstring;
  fetched : FetchOutcome
}.

Definition summaryPrompt : ChatItem :=
  {| role := assistant;
     content := str "Would you like a quick summary of the steps?";
     payload := Some (obj [("kind", str "summary_prompt")]%string) |}.

(** [(payloadQuery ?? query).trim()] *)
Definition effectiveText (payloadQuery : option jsstring) (st : State) : jsstring :=
  trim (match payloadQuery with
        | Some p => p
        | None => query st
        end).

Section Controller.
Context {host : Host}.

(** The second [setMessages] of the [try] block. *)
Definition onData (data : value) : list effect :=
  [setMessages
     (text <- formatAssistantText data ;;
      Ok ({| role := assistant; content := text; payload := Some data |}
          :: (if is_string (get_opt data (u16 "kind")) (u16 "navigator")
              then [summaryPrompt] else [])))].

(** The [try] block with its [catch]. *)
Definition attempt (text : jsstring) (w : World) (st : State) : list effect :=
  if demoMode st then
    let data := mockResponse text (genId w) in
    dispatch (Demo text) :: onData data
  else live st text (fetched w) onData.

Definition send (payloadQuery : option jsstring) (w : World) (st : State) :
    list effect :=
  let text := effectiveText payloadQuery st in
  if match text with [] => true | _ => false end || busy st then []
  else prologue text ++ attempt text w st ++ [setBusy false].

End Controller.

(** ** Utilities and UI pieces *)

(** The arguments of [cx]: [string | false | null | undefined]. *)
Inductive ClassArg : Type :=
| ClassName (s : jsstring)
| ClassFalse
| ClassNull
| ClassUndefined.

(** [Boolean(x)] on such an argument. *)
Definition Boolean (x : ClassArg) : bool :=
  match x with
  | ClassName (_ :: _) => true
  | _ => false
  end.

Definition className (x : ClassArg) : jsstring :=
  match x with
  | ClassName s => s
  | ClassFalse => u16 "false"
  | ClassNull | ClassUndefined => []
  end.

(** [xs.filter(Boolean).join(" ")] *)
Definition cx (xs : list ClassArg) : jsstring :=
  join (u16 " ") (map className (filter Boolean xs)).




(** What a [MessageBubble] renders: the alignment, the body (an
    [AssistantCard] or the plain content) and whether the "Yes, tell me the
    steps" button follows. *)
Record BubbleView : Type := {
  justifyEnd : bool;
  body : CardView + value;
  summariseButton : bool
}.

Definition MessageBubble (item : ChatItem) : BubbleView :=
  let isUser := match role item with user => true | _ => false end in
  let isAssistant := match role item with assistant => true | _ => false end in
  let summaryPrompt :=
    is_string (get_opt (payloadOf item) (u16 "kind")) (u16 "summary_prompt") in
  {| justifyEnd := isUser;
     body := if isAssistant && truthy (payloadOf item) && negb summaryPrompt
             then inl (AssistantCard (payloadOf item) (content item))
             else inr (content item);
     summariseButton := summaryPrompt |}.

Section Handlers.
Context {host : Host}.

(** [onKey]: the flag tells whether [e.preventDefault()] was called. *)
Definition onKey (key : jsstring) (shiftKey : bool) (w : World) (st : State) :
    bool * list effect :=
  if eqb_str key (u16 "Enter") && negb shiftKey
  then (true, send None w st)
  else (false, []).


(** [onSummarise] of a message bubble. *)
Definition onSummarise (w : World) (st : State) : list effect :=
  send (Some (u16 "Yes, tell me the steps")) w st.

End Handlers.

End AppTsx.

(* ================================================================== *)
(** * [src/unnamed/part_002]: the full-page chat console *)
(* ================================================================== *)

Module Part002.
Import JS Common.

Local Open Scope list_scope.

Section Helpers.
Context {host : Host}.

Definition formatAssistantText (data : value) : result value :=
  kind <- get data (u16 "kind") ;;
  if is_string kind (u16 "navigator") then
    answer <- get data (u16 "answer") ;;
    let title :=
      or_else answer
        (str "Here are the recommended steps based on official sources:") in
    steps0 <- get data (u16 "steps") ;;
    xs <- array_of (or_else steps0 (VArr [])) ;;
    steps <- mapi (fun s i =>
                     t <- get s (u16 "title") ;;
                     Ok (decimal (i + 1) ++ u16 ". " ++ ToString t)) xs ;;
    Ok (VStr (ToString title ++ nl ++ join nl steps))
  else
    kind' <- get data (u16 "kind") ;;
    if is_string kind' (u16 "trustbot") then
      answer <- get data (u16 "answer") ;;
      Ok (or_else answer (str "Here are the results with SQL shown."))
    else Ok (VStr []).

End Helpers.

(** ** Demo mocks

    [genId()] and [new Date().toISOString()] are inputs of the model. *)

Definition reTrust : regex :=
  alts [lit (u16 "top"); lit (u16 "average"); lit (u16 "median");
        lit (u16 "quarter"); Seq (lit (u16 "q")) Digit; lit (u16 "amount");
        lit (u16 "sum"); Seq (Plus Digit) (lit (u16 "%")); lit (u16 "how many");
        lit (u16 "show")].

Definition mockResponse (q : jsstring) (pref : PipelinePref)
    (genId now : jsstring) : value :=
  let wantTrust :=
    match pref with trustbot => true | _ => false end || test reTrust q in
  if wantTrust then
    obj [("kind", str "trustbot");
         ("answer", str "Top vendor payments in 2023–24 Q2 (≥ $500k).");
         ("table", obj [
            ("columns", VArr [str "vendor"; str "amount"; str "date"; str "category"]);
            ("rows", VArr [
               VArr [str "Acme Pty Ltd"; VNum 830000; str "2024-02-13"; str "IT"];
               VArr [str "Koala Tech"; VNum 790000; str "2024-03-29"; str "Services"];
               VArr [str "Wattle Solutions"; VNum 670000; str "2024-01-19"; str "Consulting"]])]);
         ("chart", obj [("type", str "bar"); ("x", str "vendor"); ("y", str "amount")]);
         ("sql", str "SELECT vendor, amount, paid_at as date, category FROM procurement_payments WHERE amount >= 500000 AND quarter='2023-24 Q2' ORDER BY amount DESC LIMIT 10;");
         ("dataset", obj [("name", str "AusTender Demo");
                          ("period", str "2023-07-01..2024-06-30");
                          ("last_updated", VStr now)]);
         ("confidence", obj [("level", str "exact"); ("score", VNum 1.0)]);
         ("audit_id", VStr genId)]%string
  else
    obj [("kind", str "navigator");
         ("answer", str "Based on official sources, here is a simple plan to arrange home care after hospital discharge:");
         ("steps", VArr [
            obj [("title", str "Book a My Aged Care assessment");
                 ("link", str "https://www.myagedcare.gov.au/")];
            obj [("title", str "Prepare medical summary & ID documents");
                 ("link", str "https://www.healthdirect.gov.au/")];
            obj [("title", str "Explore interim respite services in your LGA")]]);
         ("evidence", VArr [
            obj [("title", str "Home Care Packages (My Aged Care)");
                 ("url", str "https://www.myagedcare.gov.au/home-care-package");
                 ("updated_at", str "2025-06-01"); ("similarity", VNum 0.82)];
            obj [("title", str "Carer Allowance (Services Australia)");
                 ("url", str "https://www.servicesaustralia.gov.au/carer-allowance");
                 ("updated_at", str "2025-05-12"); ("similarity", VNum 0.76)]]);
         ("confidence", obj [("level", str "high"); ("score", VNum 0.84)]);
         ("audit_id", VStr genId)]%string.

(** ** The chat console *)

Definition welcome : ChatItem :=
  {| role := system;
     content := str "Welcome to TrustAid. Ask about government services or data. We show citations, SQL and audit trails.";
     payload := None |}.

(** State of a freshly mounted console, given the three stored settings. *)
Definition initial (api : jsstring) (demo : bool) (pref : PipelinePref) : State :=
  {| apiBase := api; demoMode := demo; pipelinePref := pref;
     busy := false; error := None; query := []; messages := [welcome] |}.

Record World : Type := {
  genId : jsstring;
  now : jsstring;
  fetched : FetchOutcome
}.

Section Controller.
Context {host : Host}.

(** The second [setMessages] of the [try] block. *)
Definition onData (data : value) : list effect :=
  [setMessages
     (text <- formatAssistantText data ;;
      Ok [{| role := assistant; content := text; payload := Some data |}])].

(** The [try] block with its [catch]. *)
Definition attempt (userQ : jsstring) (w : World) (st : State) : list effect :=
  if demoMode st then
    let data := mockResponse userQ (pipelinePref st) (genId w) (now w) in
    dispatch (Demo userQ) :: onData data
  else live st userQ (fetched w) onData.

Definition send (w : World) (st : State) : list effect :=
  if match trim (query st) with [] => true | _ => false end || busy st then []
  else
    let userQ := trim (query st) in
    prologue userQ ++ attempt userQ w st ++ [setBusy false].

End Controller.

(** ** UI pieces *)

Record BubbleView : Type := {
  justifyEnd : bool;
  body : CardView + value
}.

Definition MessageBubble (item : ChatItem) : BubbleView :=
  let isUser := match role item with user => true | _ => false end in
  let isAssistant := match role item with assistant => true | _ => false end in
  {| justifyEnd := isUser;
     body := if isAssistant && truthy (payloadOf item)
             then inl (AssistantCard (payloadOf item) (content item))
             else inr (content item) |}.

Section Handlers.
Context {host : Host}.

(** [onKey]: the flag tells whether [e.preventDefault()] was called. *)
Definition onKey (key : jsstring) (shiftKey : bool) (w : World) (st : State) :
    bool * list effect :=
  if eqb_str key (u16 "Enter") && negb shiftKey
  then (true, send w st)
  else (false, []).

End Handlers.

End Part002.

(* ================================================================== *)
(** * Statements: vocabulary and sample inputs *)
(* ================================================================== *)

Import JS Common.

Local Open Scope list_scope.

(** ** Patterns *)

(** A literal matches the words that equal it up to the case of ASCII
    letters. *)
Definition sameUpToCase (w pattern : jsstring) : Prop :=
  Forall2 (fun x c => Canonicalize x = Canonicalize c) w pattern.

(** ** Payload shapes and fallback text *)







(** ** Effects of a [send] *)

Definition isUser (m : ChatItem) : bool :=
  match role m with
  | user => true
  | _ => false
  end.

(** The outbound call of a [send] that passes its guard with text [text]:
    the demo responder in demo mode, the POST otherwise. *)
Definition outbound (st : State) (text : jsstring) : Request :=
  if demoMode st then Demo text
  else Fetch (apiBase st ++ u16 "/chat/query")
             (requestBody text (pipelinePref st)).


(** The two ways the widget's [send] obtains [data]: from the demo
    responder, or from a response with a status in 200..299 whose body
    parses. *)
Definition obtains (text : jsstring) (w : AppTsx.World) (st : State)
    (data : value) : Prop :=
  (demoMode st = true /\ data = AppTsx.mockResponse text (AppTsx.genId w)) \/
  (demoMode st = false /\
   exists status, ok status = true /\
                  AppTsx.fetched w = Response status (inr data)).

(** ** Tables and errors *)









(** What the live branch of the [try] block ends with: the thrown value,
    or the parsed body. *)
Definition fetchData (f : FetchOutcome) : exn + value :=
  match f with
  | Rejected e => inl e
  | Response status json =>
      if ok status then json
      else inl {| message := u16 "HTTP " ++ decimal status |}
  end.

(** ** Outcome of a [send] *)

(** What the [try] block of the widget ends with: the payload of the demo
    responder in demo mode, the outcome of the live branch otherwise. *)
Definition widgetOutcome (text : jsstring) (w : AppTsx.World) (st : State) :
    exn + value :=
  if demoMode st then inr (AppTsx.mockResponse text (AppTsx.genId w))
  else fetchData (AppTsx.fetched w).

Definition consoleOutcome (text : jsstring) (w : Part002.World) (st : State) :
    exn + value :=
  if demoMode st
  then inr (Part002.mockResponse text (pipelinePref st)
              (Part002.genId w) (Part002.now w))
  else fetchData (Part002.fetched w).


(** ** Bubbles *)

(** The bodies a bubble can have for an assistant entry that carries the
    payload [data] together with the text [formatAssistantText] computed
    from it: a kind-specific card, or an empty text (alone, as the
    fallback of a card, or beside the raw dump). *)
Definition answerBody (data : value) (b : CardView + value) : Prop :=
  b = inl (NavigatorAnswer data) \/ b = inl (TrustbotAnswer data) \/
  b = inl (FallbackOnly (VStr [])) \/ b = inl (RawDump (VStr []) data) \/
  b = inr (VStr []).

(** The kinds with a renderer or a special treatment. *)
Definition knownKind (data : value) : bool :=
  is_string (get_opt data (u16 "kind")) (u16 "error")
  || is_string (get_opt data (u16 "kind")) (u16 "navigator")
  || is_string (get_opt data (u16 "kind")) (u16 "trustbot").

(** ** Routing conditions *)

(** Some substring of [q] satisfies [P]. *)
Definition occursIn (q : jsstring) (P : jsstring -> Prop) : Prop :=
  exists p w s, q = p ++ w ++ s /\ P w.

(** The words of the bereavement pattern, in any letter case. *)
Definition bereavementWord (w : jsstring) : Prop :=
  Exists (sameUpToCase w)
    [u16 "die"; u16 "passed away"; u16 "bereave"; u16 "death"].

(** The words of the aggregation pattern: a keyword in any letter case,
    "q" or "Q" followed by a digit, or one or more digits followed by "%". *)
Definition aggregationWord (w : jsstring) : Prop :=
  Exists (sameUpToCase w)
    [u16 "top"; u16 "average"; u16 "median"; u16 "quarter"; u16 "amount";
     u16 "sum"; u16 "how many"; u16 "show"] \/
  (exists u d, w = u ++ [d] /\ sameUpToCase u (u16 "q") /\ isDigit d = true) \/
  (exists ds, ds <> [] /\ forallb isDigit ds = true /\ w = ds ++ u16 "%").

(** ** Sample inputs *)





Definition tablePayload : value :=
  obj [("kind", str "trustbot"); ("answer", str "42 licences.")]%string.

(** A freshly mounted widget in demo mode. *)
Definition demoState : State :=
  AppTsx.initial (u16 "http://localhost:8000") true auto.

Definition demoWorld : AppTsx.World :=
  {| AppTsx.genId := u16 "k3x9lq2";
     AppTsx.fetched := Rejected {| message := u16 "Failed to fetch" |} |}.

(** A freshly mounted widget in demo mode, the preference forced to
    [trustbot]. *)
Definition forcedTrustbot : State :=
  AppTsx.initial (u16 "http://localhost:8000") true trustbot.

(** An idle component in live mode, with a question typed in. *)
Definition liveState : State :=
  mkState (u16 "http://localhost:8000") false auto false None
          (u16 "  how many licences were issued?  ") [AppTsx.greeting].

(** A backend that answers 200 with a trustbot payload. *)
Definition liveWorld : AppTsx.World :=
  {| AppTsx.genId := u16 "k3x9lq2";
     AppTsx.fetched := Response 200 (inr tablePayload) |}.

(** A backend that answers 500. *)
Definition failingWorld : AppTsx.World :=
  {| AppTsx.genId := u16 "k3x9lq2";
     AppTsx.fetched := Response 500 (inl {| message := u16 "Unexpected token" |}) |}.

Definition consoleWorld : Part002.World :=
  {| Part002.genId := u16 "k3x9lq2";
     Part002.now := u16 "2025-08-30T11:32:11.774Z";
     Part002.fetched := Response 500 (inl {| message := u16 "Unexpected token" |}) |}.

(** A component with a request in flight. *)
Definition inFlight : State :=
  mkState (u16 "http://localhost:8000") false auto true None
          (u16 "and another question") [AppTsx.greeting; userItem (u16 "hello")].

(** ** Further sample inputs *)

(** A payload of a kind the front end has no renderer for. *)
Definition unknownPayload : value :=
  obj [("kind", str "unknown_future_type"); ("answer", str "42")]%string.

Definition unknownWorld : AppTsx.World :=
  {| AppTsx.genId := u16 "k3x9lq2";
     AppTsx.fetched := Response 200 (inr unknownPayload) |}.

(** Backends that answer 200 with the body [null]. *)
Definition nullWorld : AppTsx.World :=
  {| AppTsx.genId := u16 "k3x9lq2"; AppTsx.fetched := Response 200 (inr VNull) |}.

Definition consoleNullWorld : Part002.World :=
  {| Part002.genId := u16 "k3x9lq2";
     Part002.now := u16 "2025-08-30T11:32:11.774Z";
     Part002.fetched := Response 200 (inr VNull) |}.

(** A backend that answers 500 with another body than [failingWorld]. *)
Definition failingWorld' : AppTsx.World :=
  {| AppTsx.genId := u16 "z17";
     AppTsx.fetched := Response 500 (inr tablePayload) |}.

Definition consoleWorld' : Part002.World :=
  {| Part002.genId := u16 "z17";
     Part002.now := u16 "2025-09-01T08:00:00.000Z";
     Part002.fetched := Response 500 (inr tablePayload) |}.

(** An idle component in demo mode, with a question typed in. *)
Definition demoTyped : State :=
  mkState (u16 "http://localhost:8000") true auto false None
          (u16 " what to do when someone dies ") [AppTsx.greeting].


(* ================================================================== *)
(** * Properties *)
(* ================================================================== *)

(** ** Strings and patterns *)

Section PatternFacts.
Import JS.

#[local] Hint Constructors lang : core.

Lemma eqb_str_true (a b : jsstring) : eqb_str a b = true <-> a = b.
Proof.
  unfold eqb_str. destruct (list_eq_dec N.eq_dec a b); split; congruence.
Qed.

Lemma eqb_str_refl (a : jsstring) : eqb_str a a = true.
Proof. now apply eqb_str_true. Qed.

Lemma lang_fail_inv (w : jsstring) : ~ lang Fail w.
Proof. intros H. inversion H. Qed.

Lemma lang_eps_inv (w : jsstring) : lang Eps w -> w = [].
Proof. intros H. now inversion H. Qed.

Lemma lang_chr_inv (c : N) (w : jsstring) :
  lang (Chr c) w -> exists x, w = [x] /\ Canonicalize x = Canonicalize c.
Proof. intros H. inversion H; subst. eauto. Qed.

Lemma lang_digit_inv (w : jsstring) :
  lang Digit w -> exists x, w = [x] /\ isDigit x = true.
Proof. intros H. inversion H; subst. eauto. Qed.

Lemma lang_seq_inv (r s : regex) (w : jsstring) :
  lang (Seq r s) w -> exists u v, w = u ++ v /\ lang r u /\ lang s v.
Proof. intros H. inversion H; subst. eauto. Qed.

Lemma lang_alt_inv (r s : regex) (w : jsstring) :
  lang (Alt r s) w -> lang r w \/ lang s w.
Proof. intros H. inversion H; subst; auto. Qed.

Lemma lang_nil_app (r s : regex) (w : jsstring) :
  lang r [] -> lang s w -> lang (Seq r s) w.
Proof. intros Hr Hs. change w with ([] ++ w). now constructor. Qed.

Lemma nullable_lang (r : regex) : nullable r = true <-> lang r [].
Proof.
  induction r as [ | | c | | r1 IH1 r2 IH2 | r1 IH1 r2 IH2 | r IH]; simpl.
  - split; [discriminate | intros H; now apply lang_fail_inv in H].
  - split; auto.
  - split; [discriminate |].
    intros H. apply lang_chr_inv in H as (x & E & _). discriminate.
  - split; [discriminate |].
    intros H. apply lang_digit_inv in H as (x & E & _). discriminate.
  - rewrite andb_true_iff, IH1, IH2. split.
    + intros [H1 H2]. now apply lang_nil_app.
    + intros H. apply lang_seq_inv in H as (u & v & E & Hu & Hv).
      symmetry in E. apply app_eq_nil in E as [-> ->]. now split.
  - rewrite orb_true_iff, IH1, IH2. split.
    + intros [H | H]; auto.
    + apply lang_alt_inv.
  - split; auto.
Qed.

Lemma lang_mkSeq (r s : regex) (w : jsstring) :
  lang (mkSeq r s) w <-> lang (Seq r s) w.
Proof.
  destruct r; simpl; try tauto; split; intros H.
  - now apply lang_fail_inv in H.
  - apply lang_seq_inv in H as (u & v & _ & Hu & _).
    now apply lang_fail_inv in Hu.
  - now apply lang_nil_app.
  - apply lang_seq_inv in H as (u & v & -> & Hu & Hv).
    apply lang_eps_inv in Hu as ->. assumption.
Qed.

Lemma lang_mkAlt (r s : regex) (w : jsstring) :
  lang (mkAlt r s) w <-> lang (Alt r s) w.
Proof.
  assert (Hl : lang s w <-> lang (Alt Fail s) w).
  { split; auto. intros H. apply lang_alt_inv in H as [H | H]; auto.
    now apply lang_fail_inv in H. }
  assert (Hr : lang r w <-> lang (Alt r Fail) w).
  { split; auto. intros H. apply lang_alt_inv in H as [H | H]; auto.
    now apply lang_fail_inv in H. }
  destruct r; simpl; try exact Hl; destruct s; simpl; try exact Hr; tauto.
Qed.

Lemma lang_star_uncons (r : regex) (w : jsstring) :
  lang (Star r) w ->
  forall x w', w = x :: w' ->
  exists u v, w' = u ++ v /\ lang r (x :: u) /\ lang (Star r) v.
Proof.
  intros H. remember (Star r) as sr eqn:E. revert E.
  induction H as [ | | | | | | r0 | r0 u v Hu _ Hv IHv]; intros E;
    try discriminate E; intros x w' Hw.
  - discriminate Hw.
  - injection E as ->. destruct u as [|y u]; simpl in Hw.
    + now apply IHv.
    + injection Hw as -> <-. exists u, v. auto.
Qed.

Lemma deriv_lang (r : regex) : forall x w,
  lang (deriv x r) w <-> lang r (x :: w).
Proof.
  induction r as [ | | c | | r1 IH1 r2 IH2 | r1 IH1 r2 IH2 | r IH];
    intros x w; simpl.
  - split; intros H; now apply lang_fail_inv in H.
  - split; intros H; [now apply lang_fail_inv in H |].
    apply lang_eps_inv in H. discriminate.
  - destruct (N.eqb_spec (Canonicalize x) (Canonicalize c)) as [E | E]; split; intros H.
    + apply lang_eps_inv in H as ->. now constructor.
    + apply lang_chr_inv in H as (y & Ey & _). injection Ey as _ ->. auto.
    + now apply lang_fail_inv in H.
    + apply lang_chr_inv in H as (y & Ey & Hy). injection Ey as <- _.
      contradiction.
  - destruct (isDigit x) eqn:E; split; intros H.
    + apply lang_eps_inv in H as ->. now constructor.
    + apply lang_digit_inv in H as (y & Ey & _). injection Ey as _ ->. auto.
    + now apply lang_fail_inv in H.
    + apply lang_digit_inv in H as (y & Ey & Hy). injection Ey as <- _.
      congruence.
  - rewrite lang_mkAlt. split; intros H.
    + apply lang_alt_inv in H as [H | H].
      * apply lang_mkSeq, lang_seq_inv in H as (u & v & -> & Hu & Hv).
        change (x :: u ++ v) with ((x :: u) ++ v). constructor; auto.
        now apply IH1.
      * destruct (nullable r1) eqn:En; [| now apply lang_fail_inv in H].
        apply lang_nil_app; [now apply nullable_lang | now apply IH2].
    + apply lang_seq_inv in H as (u & v & E & Hu & Hv).
      destruct u as [|y u]; simpl in E.
      * subst v. apply lang_alt_r.
        apply nullable_lang in Hu. rewrite Hu. now apply IH2.
      * injection E as <- ->. apply lang_alt_l, lang_mkSeq.
        constructor; auto. now apply IH1.
  - rewrite lang_mkAlt. split; intros H; apply lang_alt_inv in H as [H | H].
    + apply lang_alt_l. now apply IH1.
    + apply lang_alt_r. now apply IH2.
    + apply lang_alt_l. now apply IH1.
    + apply lang_alt_r. now apply IH2.
  - rewrite lang_mkSeq. split; intros H.
    + apply lang_seq_inv in H as (u & v & -> & Hu & Hv).
      change (x :: u ++ v) with ((x :: u) ++ v). constructor; auto.
      now apply IH.
    + destruct (lang_star_uncons _ _ H _ _ eq_refl) as (u & v & -> & Hu & Hv).
      constructor; auto. now apply IH.
Qed.

Lemma matchPrefix_spec (s : jsstring) : forall r,
  matchPrefix r s = true <-> exists u v, s = u ++ v /\ lang r u.
Proof.
  induction s as [|x s IH]; intros r; simpl.
  - rewrite orb_false_r, nullable_lang. split.
    + intros H. now exists [], [].
    + intros (u & v & E & H). symmetry in E.
      apply app_eq_nil in E as [-> _]. assumption.
  - rewrite orb_true_iff, nullable_lang, IH. split.
    + intros [H | (u & v & -> & H)].
      * now exists [], (x :: s).
      * exists (x :: u), v. split; [reflexivity | now apply deriv_lang].
    + intros (u & v & E & H). destruct u as [|y u].
      * now left.
      * simpl in E. injection E as <- ->. right.
        exists u, v. split; [reflexivity | now apply deriv_lang].
Qed.

(** [test] is substring search for the language of the pattern. *)
Lemma test_spec (r : regex) (s : jsstring) :
  test r s = true <-> exists p u v, s = p ++ u ++ v /\ lang r u.
Proof.
  induction s as [|x s IH]; cbn [test].
  - rewrite orb_false_r, matchPrefix_spec. split.
    + intros (u & v & E & H). now exists [], u, v.
    + intros (p & u & v & E & H). symmetry in E.
      apply app_eq_nil in E as [-> E]. now exists u, v.
  - rewrite orb_true_iff, matchPrefix_spec, IH. split.
    + intros [(u & v & E & H) | (p & u & v & -> & H)].
      * now exists [], u, v.
      * now exists (x :: p), u, v.
    + intros (p & u & v & E & H). destruct p as [|y p].
      * left. now exists u, v.
      * simpl in E. injection E as <- ->. right. now exists p, u, v.
Qed.

Lemma lang_lit (s : jsstring) : forall w, lang (lit s) w <-> sameUpToCase w s.
Proof.
  unfold sameUpToCase.
  induction s as [|c s IH]; intros w; cbn [lit]; split; intros H.
  - apply lang_eps_inv in H as ->. constructor.
  - inversion H. constructor.
  - apply lang_seq_inv in H as (u & v & -> & Hu & Hv).
    apply lang_chr_inv in Hu as (x & -> & Hx).
    constructor; [exact Hx | now apply IH].
  - inversion H as [| x c' w' s' Hx Hw]; subst.
    change (x :: w') with ([x] ++ w'). constructor; [now constructor | now apply IH].
Qed.

Lemma lang_alts (rs : list regex) (w : jsstring) :
  lang (alts rs) w <-> Exists (fun r => lang r w) rs.
Proof.
  induction rs as [|r rs IH]; cbn [alts].
  - split; intros H; [now apply lang_fail_inv in H | inversion H].
  - destruct rs as [|r' rs].
    + split; intros H; [now constructor |].
      inversion H as [? ? H0 | ? ? H0]; [exact H0 | inversion H0].
    + split; intros H.
      * apply lang_alt_inv in H as [H | H]; [now left | right; now apply IH].
      * inversion H as [? ? H0 | ? ? H0]; subst; [now apply lang_alt_l |].
        apply lang_alt_r. now apply IH.
Qed.

(** [test] on an alternation: some substring matches some alternative. *)
Lemma test_alts (rs : list regex) (q : jsstring) :
  test (alts rs) q = true <->
  exists p w s, q = p ++ w ++ s /\ Exists (fun r => lang r w) rs.
Proof.
  rewrite test_spec. split; intros (p & w & s & E & H); exists p, w, s;
    (split; [exact E | now apply lang_alts]).
Qed.

(** ** Trimming *)

Lemma trimStart_nil (s : jsstring) :
  trimStart s = [] <-> forallb isWhiteSpace s = true.
Proof.
  induction s as [|c s IH]; simpl; [tauto |].
  destruct (isWhiteSpace c); simpl; [exact IH |].
  split; discriminate.
Qed.

Lemma trimStart_head (s : jsstring) (c : N) (r : jsstring) :
  trimStart s = c :: r -> isWhiteSpace c = false.
Proof.
  induction s as [|x s IH]; simpl; [discriminate |].
  destruct (isWhiteSpace x) eqn:E; [exact IH |].
  now intros [= <- _].
Qed.

Lemma forallb_rev (f : N -> bool) (s : jsstring) :
  forallb f (rev s) = forallb f s.
Proof.
  induction s as [|c s IH]; simpl; [reflexivity |].
  rewrite forallb_app, IH. simpl. rewrite andb_true_r. apply andb_comm.
Qed.

(** The text is empty after trimming exactly when it consists of white
    space only. *)
Lemma trim_nil (s : jsstring) :
  trim s = [] <-> forallb isWhiteSpace s = true.
Proof.
  unfold trim, trimEnd. rewrite <- trimStart_nil. split.
  - intros H.
    assert (H' : trimStart (rev (trimStart s)) = []).
    { destruct (trimStart (rev (trimStart s))) as [|c r]; [reflexivity |].
      simpl in H. apply app_eq_nil in H as [_ H]. discriminate H. }
    apply trimStart_nil in H'. rewrite forallb_rev in H'.
    destruct (trimStart s) as [|c r] eqn:E; [reflexivity |].
    apply trimStart_head in E. simpl in H'. now rewrite E in H'.
  - intros ->. reflexivity.
Qed.

End PatternFacts.

(** ** The demo responders *)

(** The bereavement pattern of the widget, read as a condition on the
    query: it contains "die", "passed away", "bereave" or "death", in any
    letter case. *)
Lemma bereavement_pattern (q : jsstring) :
  test AppTsx.reBereavement q = true <->
  exists p w s,
    q = p ++ w ++ s /\
    (sameUpToCase w (u16 "die") \/ sameUpToCase w (u16 "passed away") \/
     sameUpToCase w (u16 "bereave") \/ sameUpToCase w (u16 "death")).
Proof.
  unfold AppTsx.reBereavement. rewrite test_alts.
  split; intros (p & w & s & E & H); exists p, w, s; (split; [exact E |]);
    revert H; rewrite !Exists_cons, Exists_nil, !lang_lit; tauto.
Qed.

(** The widget's responder has a single kind of answer. *)
Lemma widget_mock_kind (q id : jsstring) :
  get_opt (AppTsx.mockResponse q id) (u16 "kind") = str "navigator".
Proof.
  unfold AppTsx.mockResponse.
  destruct (test AppTsx.reBereavement q); vm_compute; reflexivity.
Qed.

Lemma widget_mock_no_table (q id : jsstring) :
  get_opt (AppTsx.mockResponse q id) (u16 "table") = VUndefined.
Proof.
  unfold AppTsx.mockResponse.
  destruct (test AppTsx.reBereavement q); vm_compute; reflexivity.
Qed.

(** The console's responder: what decides the kind. *)
Lemma console_mock_kind (q : jsstring) (pref : PipelinePref) (id now : jsstring) :
  get_opt (Part002.mockResponse q pref id now) (u16 "kind")
  = if match pref with trustbot => true | _ => false end || test Part002.reTrust q
    then str "trustbot" else str "navigator".
Proof.
  unfold Part002.mockResponse. cbv zeta.
  destruct (match pref with trustbot => true | _ => false end
            || test Part002.reTrust q); vm_compute; reflexivity.
Qed.

Lemma console_mock_trust_rows (q : jsstring) (pref : PipelinePref) (id now : jsstring) :
  match pref with trustbot => true | _ => false end || test Part002.reTrust q = true ->
  exists r rs,
    get_opt (get_opt (Part002.mockResponse q pref id now) (u16 "table")) (u16 "rows")
    = VArr (r :: rs).
Proof.
  intros H. unfold Part002.mockResponse. cbv zeta. rewrite H.
  eexists. eexists. vm_compute. reflexivity.
Qed.

(** The console's responder never answers with the bereavement plan: the
    first step of its navigator payload is fixed. *)
Lemma console_mock_first_step (q : jsstring) (pref : PipelinePref) (id now : jsstring) :
  match pref with trustbot => true | _ => false end || test Part002.reTrust q = false ->
  exists rest,
    get_opt (Part002.mockResponse q pref id now) (u16 "steps")
    = VArr (obj [("title", str "Book a My Aged Care assessment");
                 ("link", str "https://www.myagedcare.gov.au/")]%string :: rest).
Proof.
  intros H. unfold Part002.mockResponse. cbv zeta. rewrite H.
  eexists. vm_compute. reflexivity.
Qed.

(** C1, as stated, fails on the widget: the query of the claim matches the
    aggregation keywords, and the widget's responder answers it with a
    navigator payload that has no table. *)
Lemma C1_widget_counterexample :
  test Part002.reTrust (u16 "show top vendor payments this quarter") = true /\
  get_opt (AppTsx.mockResponse (u16 "show top vendor payments this quarter")
                               (u16 "k3x9lq2"))
          (u16 "kind") = str "navigator" /\
  get_opt (AppTsx.mockResponse (u16 "show top vendor payments this quarter")
                               (u16 "k3x9lq2"))
          (u16 "table") = VUndefined.
Proof. vm_compute. repeat split. Qed.

(** C1 (amended): for every query text matching the aggregation keyword set
    and preference [auto], the console's demo responder
    ([mockResponse(q, pref)] of part_002) returns a payload of kind
    "trustbot" whose table has at least one row; the widget's demo
    responder ([mockResponse(q)] of App.tsx) has no trustbot branch and
    returns a payload of kind "navigator", without table, for the same
    query. *)
Theorem C1_aggregation_query_auto (q id now : jsstring) :
  test Part002.reTrust q = true ->
  (get_opt (Part002.mockResponse q auto id now) (u16 "kind") = str "trustbot" /\
   exists r rs,
     get_opt (get_opt (Part002.mockResponse q auto id now) (u16 "table"))
             (u16 "rows") = VArr (r :: rs)) /\
  (get_opt (AppTsx.mockResponse q id) (u16 "kind") = str "navigator" /\
   get_opt (AppTsx.mockResponse q id) (u16 "table") = VUndefined).
Proof.
  intros H. repeat split.
  - rewrite console_mock_kind. simpl. now rewrite H.
  - apply console_mock_trust_rows. simpl. exact H.
  - apply widget_mock_kind.
  - apply widget_mock_no_table.
Qed.

Lemma C1_aggregation_query_auto_witness :
  test Part002.reTrust (u16 "show top vendor payments this quarter") = true /\
  get_opt (Part002.mockResponse (u16 "show top vendor payments this quarter")
                                auto (u16 "k3x9lq2") (u16 "2025-08-30T11:32:11.774Z"))
          (u16 "kind") = str "trustbot".
Proof.
  split.
  - vm_compute. reflexivity.
  - apply (C1_aggregation_query_auto
             (u16 "show top vendor payments this quarter")
             (u16 "k3x9lq2") (u16 "2025-08-30T11:32:11.774Z")).
    vm_compute. reflexivity.
Defined.

(** With the preference forced to [navigator], the console's responder
    still lets the keywords decide: it answers an aggregation query with a
    payload of kind "trustbot". *)
Lemma console_forced_navigator_overridden (id now : jsstring) :
  get_opt (Part002.mockResponse (u16 "show top vendor payments this quarter")
                                navigator id now)
          (u16 "kind") = str "trustbot".
Proof. rewrite console_mock_kind. vm_compute. reflexivity. Qed.

(** C2, as stated, fails on the widget: in demo mode with the preference
    forced to [trustbot], [send] calls the demo responder without the
    preference and appends a payload of kind "navigator". *)
Lemma C2_widget_counterexample :
  demoMode forcedTrustbot = true /\
  pipelinePref forcedTrustbot = trustbot /\
  exists text' data,
    appended (@AppTsx.send plainHost
                (Some (u16 "show top vendor payments this quarter"))
                demoWorld forcedTrustbot)
    = [userItem (u16 "show top vendor payments this quarter");
       {| role := assistant; content := text'; payload := Some data |};
       AppTsx.summaryPrompt] /\
    get_opt data (u16 "kind") = str "navigator".
Proof.
  split; [reflexivity |]. split; [reflexivity |].
  eexists. eexists. split; vm_compute; reflexivity.
Qed.

(** C2 (amended): for every query text, the console's demo responder
    returns a payload of kind "trustbot" when the preference forces
    [trustbot], and under preference [auto] keyword matching decides the
    kind ("trustbot" when the query matches the aggregation keywords,
    "navigator" otherwise); the widget's demo responder takes no preference
    and returns a payload of kind "navigator" for every query text. *)
Theorem C2_preference_and_kind (q id now : jsstring) :
  get_opt (Part002.mockResponse q trustbot id now) (u16 "kind") = str "trustbot" /\
  get_opt (Part002.mockResponse q auto id now) (u16 "kind")
  = (if test Part002.reTrust q then str "trustbot" else str "navigator") /\
  get_opt (AppTsx.mockResponse q id) (u16 "kind") = str "navigator".
Proof.
  split; [| split].
  - rewrite console_mock_kind. reflexivity.
  - rewrite console_mock_kind. reflexivity.
  - apply widget_mock_kind.
Qed.

(** C7, as stated, fails on the console: the query of the claim matches the
    bereavement pattern, and the console's responder answers it with its
    generic navigator payload, whose first step is another one. *)
Lemma C7_console_counterexample :
  test AppTsx.reBereavement (u16 "what to do when someone dies") = true /\
  get_opt (Part002.mockResponse (u16 "what to do when someone dies") auto
                                (u16 "k3x9lq2") (u16 "2025-08-30T11:32:11.774Z"))
          (u16 "steps")
  = VArr [obj [("title", str "Book a My Aged Care assessment");
               ("link", str "https://www.myagedcare.gov.au/")];
          obj [("title", str "Prepare medical summary & ID documents");
               ("link", str "https://www.healthdirect.gov.au/")];
          obj [("title", str "Explore interim respite services in your LGA")]]%string.
Proof. vm_compute. split; reflexivity. Qed.

(** C7 (amended): for every query text matching the bereavement keyword
    pattern, the widget's demo responder ([mockResponse(q)] of App.tsx)
    returns a payload of kind "navigator" whose steps list is non-empty and
    whose first step has title "Register the death". *)
Theorem C7_bereavement_plan (q id : jsstring) :
  test AppTsx.reBereavement q = true ->
  get_opt (AppTsx.mockResponse q id) (u16 "kind") = str "navigator" /\
  exists first rest,
    get_opt (AppTsx.mockResponse q id) (u16 "steps") = VArr (first :: rest) /\
    get_opt first (u16 "title") = str "Register the death".
Proof.
  intros H. split; [apply widget_mock_kind |].
  unfold AppTsx.mockResponse. cbv zeta. rewrite H.
  eexists. eexists. split; vm_compute; reflexivity.
Qed.

Lemma C7_bereavement_plan_witness :
  test AppTsx.reBereavement (u16 "what to do when someone dies") = true /\
  get_opt (AppTsx.mockResponse (u16 "what to do when someone dies") (u16 "k3x9lq2"))
          (u16 "kind") = str "navigator".
Proof.
  split.
  - vm_compute. reflexivity.
  - apply (C7_bereavement_plan (u16 "what to do when someone dies") (u16 "k3x9lq2")).
    vm_compute. reflexivity.
Defined.

Section Formatter.
Context {host : Host}.

Lemma kind_is_object (data : value) (k : jsstring) :
  get_opt data (u16 "kind") = VStr k -> exists props, data = VObj props.
Proof. destruct data; simpl; try discriminate. eauto. Qed.












(** The console's formatter reads [data.kind] without optional chain. *)
Lemma console_format_null :
  Part002.formatAssistantText VNull = TypeError /\
  Part002.formatAssistantText VUndefined = TypeError.
Proof. split; reflexivity. Qed.

End Formatter.




(** ** Tables *)

(** C9: the table with columns ["a","b"] and rows [[1,null]] projects to
    the row objects [{a:1,b:null}]; a null or undefined cell is formatted as
    the placeholder glyph "—" (which is not the text "undefined";
    [formatCell] is total, it cannot throw); a numeric cell is formatted by
    the locale-aware number formatter of the host. *)
Theorem C9_table_projection_and_cells (host : Host) :
  rowsToObjects (obj [("columns", VArr [str "a"; str "b"]);
                      ("rows", VArr [VArr [VNum 1; VNull]])]%string)
  = Ok (VArr [obj [("a", VNum 1); ("b", VNull)]%string]) /\
  formatCell VNull = u16 "—" /\
  formatCell VUndefined = u16 "—" /\
  u16 "—" <> u16 "undefined" /\
  forall q : Q, formatCell (VNum q) = NumberFormat_format q.
Proof.
  split; [vm_compute; reflexivity |].
  split; [reflexivity |]. split; [reflexivity |].
  split; [vm_compute; discriminate | reflexivity].
Qed.

(** C10: on an absent payload ([null] or [undefined]) the widget's
    [formatAssistantText] returns the empty string and does not throw. *)
Theorem C10_format_absent_payload (host : Host) :
  AppTsx.formatAssistantText VNull = Ok (VStr []) /\
  AppTsx.formatAssistantText VUndefined = Ok (VStr []).
Proof. split; reflexivity. Qed.

(** ** The conversation controller *)

#[local] Arguments u16 : simpl never.
#[local] Arguments str : simpl never.
#[local] Arguments obj : simpl never.

Lemma run_app (es1 es2 : list effect) : forall st,
  run (es1 ++ es2) st
  = match run es1 st with
    | Some st' => run es2 st'
    | None => None
    end.
Proof.
  induction es1 as [|e es1 IH]; intros st; simpl; [reflexivity |].
  destruct (apply e st); [apply IH | reflexivity].
Qed.

Lemma requests_app (es1 es2 : list effect) :
  requests (es1 ++ es2) = requests es1 ++ requests es2.
Proof.
  induction es1 as [|e es1 IH]; simpl; [reflexivity |].
  destruct e; simpl; now rewrite IH.
Qed.



Lemma run_prologue (text : jsstring) (st : State) :
  run (prologue text) st
  = Some (mkState (apiBase st) (demoMode st) (pipelinePref st) true None []
                  (messages st ++ [userItem text])).
Proof. reflexivity. Qed.


Lemma live_tail (st : State) (text : jsstring) (f : FetchOutcome)
    (onData : value -> list effect) :
  (forall data, requests (onData data) = [] /\
                filter isUser (appended (onData data)) = []) ->
  exists rest,
    live st text f onData
    = dispatch (Fetch (apiBase st ++ u16 "/chat/query")
                      (requestBody text (pipelinePref st))) :: rest /\
    requests rest = [] /\ filter isUser (appended rest) = [].
Proof.
  intros H. unfold live. eexists. split; [reflexivity |].
  destruct f as [e | status [e | data]]; try destruct (negb (ok status));
    try (split; reflexivity); apply H.
Qed.

Section Controller.
Context {host : Host}.

Lemma widget_onData_tail (data : value) :
  requests (AppTsx.onData data) = [] /\
  filter isUser (appended (AppTsx.onData data)) = [].
Proof.
  unfold AppTsx.onData. split; [reflexivity |]. simpl.
  destruct (AppTsx.formatAssistantText data); [| reflexivity]. simpl.
  destruct (is_string _ _); reflexivity.
Qed.

Lemma console_onData_tail (data : value) :
  requests (Part002.onData data) = [] /\
  filter isUser (appended (Part002.onData data)) = [].
Proof.
  unfold Part002.onData. split; [reflexivity |]. simpl.
  destruct (Part002.formatAssistantText data); reflexivity.
Qed.

Lemma widget_attempt_tail (text : jsstring) (w : AppTsx.World) (st : State) :
  exists rest,
    AppTsx.attempt text w st = dispatch (outbound st text) :: rest /\
    requests rest = [] /\ filter isUser (appended rest) = [].
Proof.
  unfold AppTsx.attempt, outbound. destruct (demoMode st).
  - eexists. split; [reflexivity |]. apply widget_onData_tail.
  - apply live_tail, widget_onData_tail.
Qed.

Lemma console_attempt_tail (text : jsstring) (w : Part002.World) (st : State) :
  exists rest,
    Part002.attempt text w st = dispatch (outbound st text) :: rest /\
    requests rest = [] /\ filter isUser (appended rest) = [].
Proof.
  unfold Part002.attempt, outbound. destruct (demoMode st).
  - eexists. split; [reflexivity |]. apply console_onData_tail.
  - apply live_tail, console_onData_tail.
Qed.

Lemma widget_send_guarded (pq : option jsstring) (w : AppTsx.World) (st : State) :
  busy st = true \/ AppTsx.effectiveText pq st = [] ->
  AppTsx.send pq w st = [].
Proof.
  unfold AppTsx.send. cbv zeta. intros [-> | ->].
  - now rewrite orb_true_r.
  - reflexivity.
Qed.

Lemma console_send_guarded (w : Part002.World) (st : State) :
  busy st = true \/ trim (query st) = [] ->
  Part002.send w st = [].
Proof.
  unfold Part002.send. intros [-> | ->].
  - now rewrite orb_true_r.
  - reflexivity.
Qed.

Lemma widget_send_passes (pq : option jsstring) (w : AppTsx.World) (st : State) :
  busy st = false -> AppTsx.effectiveText pq st <> [] ->
  AppTsx.send pq w st
  = prologue (AppTsx.effectiveText pq st)
    ++ AppTsx.attempt (AppTsx.effectiveText pq st) w st ++ [setBusy false].
Proof.
  intros Hb Ht. unfold AppTsx.send. cbv zeta. rewrite Hb.
  destruct (AppTsx.effectiveText pq st); [congruence | reflexivity].
Qed.

Lemma console_send_passes (w : Part002.World) (st : State) :
  busy st = false -> trim (query st) <> [] ->
  Part002.send w st
  = prologue (trim (query st))
    ++ Part002.attempt (trim (query st)) w st ++ [setBusy false].
Proof.
  intros Hb Ht. unfold Part002.send. rewrite Hb.
  destruct (trim (query st)); [congruence | reflexivity].
Qed.

(** While a request is in flight the state is busy, and a further [send]
    does nothing. *)
Lemma in_flight_send_noop (text : jsstring) (st st' : State)
    (pq : option jsstring) (w1 : AppTsx.World) (w2 : Part002.World) :
  run (prologue text ++ [dispatch (outbound st text)]) st = Some st' ->
  busy st' = true /\ AppTsx.send pq w1 st' = [] /\ Part002.send w2 st' = [].
Proof.
  rewrite run_app, run_prologue. simpl. intros [= <-].
  split; [reflexivity |]. split.
  - apply widget_send_guarded. now left.
  - apply console_send_guarded. now left.
Qed.

End Controller.

Lemma is_string_true (v : value) (s : jsstring) :
  is_string v s = true <-> v = VStr s.
Proof.
  destruct v; simpl; try (split; [discriminate | intros [=]]).
  rewrite eqb_str_true. split; [now intros -> | now intros [= ->]].
Qed.

Lemma widget_attempt_obtains (host : Host) (text : jsstring) (w : AppTsx.World)
    (st : State) (data : value) :
  obtains text w st data ->
  AppTsx.attempt text w st = dispatch (outbound st text) :: AppTsx.onData data.
Proof.
  unfold AppTsx.attempt, outbound, live.
  intros [[-> ->] | (-> & status & Hok & ->)]; [reflexivity |].
  now rewrite Hok.
Qed.

Lemma widget_success_appended (host : Host) (pq : option jsstring)
    (w : AppTsx.World) (st : State) (data text' : value) :
  busy st = false -> AppTsx.effectiveText pq st <> [] ->
  obtains (AppTsx.effectiveText pq st) w st data ->
  AppTsx.formatAssistantText data = Ok text' ->
  appended (AppTsx.send pq w st)
  = userItem (AppTsx.effectiveText pq st)
    :: {| role := assistant; content := text'; payload := Some data |}
    :: (if is_string (get_opt data (u16 "kind")) (u16 "navigator")
        then [AppTsx.summaryPrompt] else []).
Proof.
  intros Hb Ht Ho Hf.
  rewrite widget_send_passes by assumption.
  rewrite (widget_attempt_obtains _ _ _ _ _ Ho).
  unfold AppTsx.onData. rewrite Hf. simpl.
  now rewrite app_nil_r.
Qed.

Lemma widget_mock_formats (host : Host) (q id : jsstring) :
  exists text', AppTsx.formatAssistantText (AppTsx.mockResponse q id) = Ok text'.
Proof.
  unfold AppTsx.mockResponse.
  destruct (test AppTsx.reBereavement q); eexists; vm_compute; reflexivity.
Qed.

(** In demo mode every answer is followed by the follow-up entry. *)
Lemma widget_demo_always_prompts (host : Host) (pq : option jsstring)
    (w : AppTsx.World) (st : State) :
  busy st = false -> AppTsx.effectiveText pq st <> [] -> demoMode st = true ->
  In AppTsx.summaryPrompt (appended (AppTsx.send pq w st)).
Proof.
  intros Hb Ht Hd.
  destruct (widget_mock_formats host (AppTsx.effectiveText pq st) (AppTsx.genId w))
    as [text' Hf].
  rewrite (widget_success_appended host pq w st
             (AppTsx.mockResponse (AppTsx.effectiveText pq st) (AppTsx.genId w))
             text' Hb Ht); [| now left | exact Hf].
  rewrite widget_mock_kind.
  replace (is_string (str "navigator") (u16 "navigator")) with true
    by (vm_compute; reflexivity).
  simpl. auto.
Qed.

(** C3, as stated, fails in demo mode: the widget appends the follow-up
    entry after a demo response. *)
Lemma C3_demo_counterexample :
  demoMode demoState = true /\
  exists answer,
    appended (@AppTsx.send plainHost (Some (u16 "hello")) demoWorld demoState)
    = [userItem (u16 "hello"); answer; AppTsx.summaryPrompt].
Proof. split; [reflexivity |]. eexists. vm_compute. reflexivity. Qed.

(** C3 (amended): after a successful submit of the widget, the second,
    synthetic assistant entry offering the "show steps" follow-up is
    appended if and only if the response is of kind "navigator", whether
    it came from the live backend or from the demo responder; no follow-up
    entry is appended for any other kind. *)
Theorem C3_follow_up_entry (host : Host) (pq : option jsstring)
    (w : AppTsx.World) (st : State) (data text' : value) :
  busy st = false -> AppTsx.effectiveText pq st <> [] ->
  obtains (AppTsx.effectiveText pq st) w st data ->
  AppTsx.formatAssistantText data = Ok text' ->
  appended (AppTsx.send pq w st)
  = userItem (AppTsx.effectiveText pq st)
    :: {| role := assistant; content := text'; payload := Some data |}
    :: (if is_string (get_opt data (u16 "kind")) (u16 "navigator")
        then [AppTsx.summaryPrompt] else []) /\
  (In AppTsx.summaryPrompt (appended (AppTsx.send pq w st))
   <-> get_opt data (u16 "kind") = str "navigator").
Proof.
  intros Hb Ht Ho Hf.
  pose proof (widget_success_appended host pq w st data text' Hb Ht Ho Hf) as E.
  split; [exact E |]. rewrite E. split.
  - intros [H | [H | H]].
    + discriminate H.
    + injection H as -> ->. vm_compute in Hf. discriminate Hf.
    + destruct (is_string _ _) eqn:Hk; [| destruct H].
      now apply is_string_true in Hk.
  - intros Hk. rewrite Hk.
    replace (is_string (str "navigator") (u16 "navigator")) with true
      by (vm_compute; reflexivity).
    simpl. auto.
Qed.

Lemma C3_follow_up_entry_witness :
  busy liveState = false /\
  AppTsx.effectiveText None liveState <> [] /\
  obtains (AppTsx.effectiveText None liveState) liveWorld liveState tablePayload /\
  @AppTsx.formatAssistantText plainHost tablePayload = Ok (str "42 licences.") /\
  ~ In AppTsx.summaryPrompt (appended (@AppTsx.send plainHost None liveWorld liveState)).
Proof.
  assert (Hb : busy liveState = false) by reflexivity.
  assert (Ht : AppTsx.effectiveText None liveState <> [])
    by (vm_compute; discriminate).
  assert (Ho : obtains (AppTsx.effectiveText None liveState) liveWorld liveState
                       tablePayload).
  { right. split; [reflexivity |]. exists 200. split; reflexivity. }
  assert (Hf : @AppTsx.formatAssistantText plainHost tablePayload
               = Ok (str "42 licences."))
    by (vm_compute; reflexivity).
  split; [exact Hb |]. split; [exact Ht |]. split; [exact Ho |].
  split; [exact Hf |].
  intros Hin.
  apply (C3_follow_up_entry plainHost None liveWorld liveState tablePayload
                            (str "42 licences.") Hb Ht Ho Hf) in Hin.
  vm_compute in Hin. discriminate Hin.
Defined.

(** C4: in every controller state in which the busy flag is true, or in
    which the effective input text is empty after trimming, [send] does
    nothing at all: it performs no effect, so the whole state (transcript,
    error slot, input buffer, busy flag) is unchanged and no outbound
    request, live or demo, is issued.  This holds for the widget and for
    the console. *)
Theorem C4_send_is_noop (host : Host) (pq : option jsstring)
    (w1 : AppTsx.World) (w2 : Part002.World) (st : State) :
  (busy st = true \/ AppTsx.effectiveText pq st = [] ->
   AppTsx.send pq w1 st = [] /\
   run (AppTsx.send pq w1 st) st = Some st /\
   requests (AppTsx.send pq w1 st) = [] /\
   appended (AppTsx.send pq w1 st) = []) /\
  (busy st = true \/ trim (query st) = [] ->
   Part002.send w2 st = [] /\
   run (Part002.send w2 st) st = Some st /\
   requests (Part002.send w2 st) = [] /\
   appended (Part002.send w2 st) = []).
Proof.
  split; intros H.
  - rewrite (widget_send_guarded pq w1 st H). repeat split.
  - rewrite (console_send_guarded w2 st H). repeat split.
Qed.

Lemma C4_send_is_noop_witness :
  (busy inFlight = true \/ AppTsx.effectiveText (Some (u16 "hello")) inFlight = []) /\
  (busy inFlight = true \/ trim (query inFlight) = []) /\
  run (@AppTsx.send plainHost (Some (u16 "hello")) liveWorld inFlight) inFlight
  = Some inFlight /\
  run (@Part002.send plainHost consoleWorld inFlight) inFlight = Some inFlight.
Proof.
  assert (H1 : busy inFlight = true \/
               AppTsx.effectiveText (Some (u16 "hello")) inFlight = [])
    by (left; reflexivity).
  assert (H2 : busy inFlight = true \/ trim (query inFlight) = [])
    by (left; reflexivity).
  destruct (C4_send_is_noop plainHost (Some (u16 "hello")) liveWorld consoleWorld
                            inFlight) as [Hw Hc].
  split; [exact H1 |]. split; [exact H2 |]. split.
  - apply (Hw H1).
  - apply (Hc H2).
Defined.





(* ================================================================== *)
(** * Further properties *)
(* ================================================================== *)

(** ** Objects *)





(** ** [rowsToObjects] *)





Section RowObjects.
Context {host : Host}.










End RowObjects.



(** ** When [formatAssistantText] throws *)

Section FormatterErrors.
Context {host : Host}.




End FormatterErrors.

(** ** A [send] from start to end *)

Lemma live_fetchData (st : State) (text : jsstring) (f : FetchOutcome)
    (onData : value -> list effect) :
  live st text f onData
  = dispatch (Fetch (apiBase st ++ u16 "/chat/query")
                    (requestBody text (pipelinePref st)))
    :: match fetchData f with
       | inl e => onThrow e
       | inr data => onData data
       end.
Proof.
  unfold live, fetchData. destruct f as [e | status [e | data]];
    try reflexivity; destruct (ok status); reflexivity.
Qed.


Section SendRuns.
Context {host : Host}.

Lemma widget_attempt_outcome (text : jsstring) (w : AppTsx.World) (st : State) :
  AppTsx.attempt text w st
  = dispatch (outbound st text)
    :: match widgetOutcome text w st with
       | inl e => onThrow e
       | inr data => AppTsx.onData data
       end.
Proof.
  unfold AppTsx.attempt, outbound, widgetOutcome.
  destruct (demoMode st); [reflexivity | apply live_fetchData].
Qed.

Lemma console_attempt_outcome (text : jsstring) (w : Part002.World) (st : State) :
  Part002.attempt text w st
  = dispatch (outbound st text)
    :: match consoleOutcome text w st with
       | inl e => onThrow e
       | inr data => Part002.onData data
       end.
Proof.
  unfold Part002.attempt, outbound, consoleOutcome.
  destruct (demoMode st); [reflexivity | apply live_fetchData].
Qed.

(** The state after a whole [send] of the widget. *)
Lemma widget_send_run (pq : option jsstring) (w : AppTsx.World) (st : State) :
  busy st = false -> AppTsx.effectiveText pq st <> [] ->
  run (AppTsx.send pq w st) st
  = match widgetOutcome (AppTsx.effectiveText pq st) w st with
    | inl e =>
        Some (mkState (apiBase st) (demoMode st) (pipelinePref st) false
                (Some (failureMessage e)) []
                (messages st ++ [userItem (AppTsx.effectiveText pq st); errorItem]))
    | inr data =>
        match AppTsx.formatAssistantText data with
        | Ok t =>
            Some (mkState (apiBase st) (demoMode st) (pipelinePref st) false
                    None []
                    (messages st
                     ++ userItem (AppTsx.effectiveText pq st)
                     :: {| role := assistant; content := t; payload := Some data |}
                     :: (if is_string (get_opt data (u16 "kind")) (u16 "navigator")
                         then [AppTsx.summaryPrompt] else [])))
        | TypeError => None
        end
    end.
Proof.
  intros Hb Ht. rewrite (widget_send_passes pq w st Hb Ht).
  rewrite widget_attempt_outcome, run_app, run_prologue.
  destruct (widgetOutcome _ w st) as [e | data].
  - simpl. now rewrite <- app_assoc.
  - unfold AppTsx.onData.
    destruct (AppTsx.formatAssistantText data) as [t|]; simpl; [| reflexivity].
    now rewrite <- app_assoc.
Qed.

(** The state after a whole [send] of the console. *)
Lemma console_send_run (w : Part002.World) (st : State) :
  busy st = false -> trim (query st) <> [] ->
  run (Part002.send w st) st
  = match consoleOutcome (trim (query st)) w st with
    | inl e =>
        Some (mkState (apiBase st) (demoMode st) (pipelinePref st) false
                (Some (failureMessage e)) []
                (messages st ++ [userItem (trim (query st)); errorItem]))
    | inr data =>
        match Part002.formatAssistantText data with
        | Ok t =>
            Some (mkState (apiBase st) (demoMode st) (pipelinePref st) false
                    None []
                    (messages st
                     ++ [userItem (trim (query st));
                         {| role := assistant; content := t; payload := Some data |}]))
        | TypeError => None
        end
    end.
Proof.
  intros Hb Ht. rewrite (console_send_passes w st Hb Ht).
  rewrite console_attempt_outcome, run_app, run_prologue.
  destruct (consoleOutcome _ w st) as [e | data].
  - simpl. now rewrite <- app_assoc.
  - unfold Part002.onData.
    destruct (Part002.formatAssistantText data) as [t|]; simpl; [| reflexivity].
    now rewrite <- app_assoc.
Qed.



End SendRuns.

(** ** Trimmed text *)






Section SendGuard.
Context {host : Host}.

Lemma widget_requests (pq : option jsstring) (w : AppTsx.World) (st : State) :
  busy st = false -> AppTsx.effectiveText pq st <> [] ->
  requests (AppTsx.send pq w st) = [outbound st (AppTsx.effectiveText pq st)].
Proof.
  intros Hb Ht. rewrite (widget_send_passes pq w st Hb Ht).
  destruct (widget_attempt_tail (AppTsx.effectiveText pq st) w st)
    as (rest & -> & Hr & _).
  simpl. now rewrite requests_app, Hr.
Qed.

Lemma console_requests (w : Part002.World) (st : State) :
  busy st = false -> trim (query st) <> [] ->
  requests (Part002.send w st) = [outbound st (trim (query st))].
Proof.
  intros Hb Ht. rewrite (console_send_passes w st Hb Ht).
  destruct (console_attempt_tail (trim (query st)) w st)
    as (rest & -> & Hr & _).
  simpl. now rewrite requests_app, Hr.
Qed.

(** X7: [send] does nothing exactly when the component is busy or the
    text to send (the argument, or else the input buffer) consists of
    white space only. *)
Theorem send_noop_iff (pq : option jsstring) (w1 : AppTsx.World)
    (w2 : Part002.World) (st : State) :
  (AppTsx.send pq w1 st = [] <->
   busy st = true \/
   forallb isWhiteSpace (match pq with Some p => p | None => query st end) = true) /\
  (Part002.send w2 st = [] <->
   busy st = true \/ forallb isWhiteSpace (query st) = true).
Proof.
  split.
  - rewrite <- trim_nil. split.
    + intros H. destruct (busy st) eqn:Hb; [now left | right].
      destruct (AppTsx.effectiveText pq st) as [|c r] eqn:Ht; [exact Ht |].
      exfalso. rewrite widget_send_passes in H by (rewrite ?Ht; congruence).
      discriminate H.
    + apply widget_send_guarded.
  - rewrite <- trim_nil. split.
    + intros H. destruct (busy st) eqn:Hb; [now left | right].
      destruct (trim (query st)) as [|c r] eqn:Ht; [reflexivity |].
      exfalso. rewrite console_send_passes in H by (rewrite ?Ht; congruence).
      discriminate H.
    + apply console_send_guarded.
Qed.



(** X10: after a [send] that passed its guard and ran to its end, the
    input buffer is empty, so pressing Enter again sends nothing until the
    user types: [onKey] calls [preventDefault] and [send] is a no-op. *)
Theorem enter_after_send_is_noop (pq : option jsstring) (w1 w1' : AppTsx.World)
    (w2 w2' : Part002.World) (st st' : State) :
  busy st = false ->
  (AppTsx.effectiveText pq st <> [] ->
   run (AppTsx.send pq w1 st) st = Some st' ->
   AppTsx.onKey (u16 "Enter") false w1' st' = (true, [])) /\
  (trim (query st) <> [] ->
   run (Part002.send w2 st) st = Some st' ->
   Part002.onKey (u16 "Enter") false w2' st' = (true, [])).
Proof.
  intros Hb. split; intros Ht Hr.
  - assert (Hq : query st' = []).
    { rewrite (widget_send_run pq w1 st Hb Ht) in Hr.
      destruct (widgetOutcome _ w1 st) as [e | data]; [now injection Hr as <- |].
      destruct (AppTsx.formatAssistantText data); [now injection Hr as <- |].
      discriminate Hr. }
    unfold AppTsx.onKey. rewrite eqb_str_refl. simpl.
    rewrite widget_send_guarded; [reflexivity |]. right.
    unfold AppTsx.effectiveText. now rewrite Hq.
  - assert (Hq : query st' = []).
    { rewrite (console_send_run w2 st Hb Ht) in Hr.
      destruct (consoleOutcome _ w2 st) as [e | data]; [now injection Hr as <- |].
      destruct (Part002.formatAssistantText data); [now injection Hr as <- |].
      discriminate Hr. }
    unfold Part002.onKey. rewrite eqb_str_refl. simpl.
    rewrite console_send_guarded; [reflexivity |]. right. now rewrite Hq.
Qed.

End SendGuard.

(** ** Demo mode and failed requests *)

Lemma console_mock_formats (host : Host) (q : jsstring) (pref : PipelinePref)
    (id now : jsstring) :
  exists t, Part002.formatAssistantText (Part002.mockResponse q pref id now) = Ok t.
Proof.
  unfold Part002.mockResponse. cbv zeta.
  destruct (match pref with trustbot => true | _ => false end
            || test Part002.reTrust q); eexists; vm_compute; reflexivity.
Qed.

Lemma http_message (status : nat) :
  failureMessage {| message := u16 "HTTP " ++ decimal status |}
  = u16 "HTTP " ++ decimal status.
Proof.
  unfold failureMessage. cbn [message].
  destruct (u16 "HTTP " ++ decimal status) eqn:E; [| reflexivity].
  exfalso. revert E. vm_compute. discriminate.
Qed.

(** X11: in demo mode a [send] that passes its guard issues no network
    request, only the call of the demo responder, and always runs to its
    end with the error slot clear: the widget's transcript grows by the
    user entry, the answer and the follow-up entry, the console's by the
    user entry and the answer. *)
Theorem demo_send_succeeds (host : Host) (pq : option jsstring)
    (w1 : AppTsx.World) (w2 : Part002.World) (st : State) :
  busy st = false -> demoMode st = true ->
  (AppTsx.effectiveText pq st <> [] ->
   requests (AppTsx.send pq w1 st) = [Demo (AppTsx.effectiveText pq st)] /\
   exists st' t,
     run (AppTsx.send pq w1 st) st = Some st' /\
     error st' = None /\
     messages st'
     = messages st
       ++ [userItem (AppTsx.effectiveText pq st);
           {| role := assistant; content := t;
              payload := Some (AppTsx.mockResponse (AppTsx.effectiveText pq st)
                                                   (AppTsx.genId w1)) |};
           AppTsx.summaryPrompt]) /\
  (trim (query st) <> [] ->
   requests (Part002.send w2 st) = [Demo (trim (query st))] /\
   exists st' t,
     run (Part002.send w2 st) st = Some st' /\
     error st' = None /\
     messages st'
     = messages st
       ++ [userItem (trim (query st));
           {| role := assistant; content := t;
              payload := Some (Part002.mockResponse (trim (query st))
                                 (pipelinePref st) (Part002.genId w2)
                                 (Part002.now w2)) |}]).
Proof.
  intros Hb Hd. split; intros Ht.
  - split.
    + rewrite (widget_requests pq w1 st Hb Ht). unfold outbound. now rewrite Hd.
    + rewrite (widget_send_run pq w1 st Hb Ht). unfold widgetOutcome. rewrite Hd.
      destruct (widget_mock_formats host (AppTsx.effectiveText pq st)
                                    (AppTsx.genId w1)) as [t ->].
      rewrite widget_mock_kind.
      replace (is_string (str "navigator") (u16 "navigator")) with true
        by (vm_compute; reflexivity).
      eexists. exists t. repeat split.
  - split.
    + rewrite (console_requests w2 st Hb Ht). unfold outbound. now rewrite Hd.
    + rewrite (console_send_run w2 st Hb Ht). unfold consoleOutcome. rewrite Hd.
      destruct (console_mock_formats host (trim (query st)) (pipelinePref st)
                                     (Part002.genId w2) (Part002.now w2)) as [t ->].
      eexists. exists t. repeat split.
Qed.

(** X12: when the status of the response is outside 200..299 the body is
    never read: the effects of [send] are the same whatever the body (and
    whatever the demo id), and the error slot ends up holding "HTTP "
    followed by the status in decimal. *)
Theorem bad_status_body_ignored (host : Host) (pq : option jsstring)
    (w1 w1' : AppTsx.World) (w2 w2' : Part002.World) (st : State)
    (status : nat) (json json' : exn + value) :
  busy st = false -> demoMode st = false -> ok status = false ->
  (AppTsx.fetched w1 = Response status json ->
   AppTsx.fetched w1' = Response status json' ->
   AppTsx.send pq w1 st = AppTsx.send pq w1' st /\
   (AppTsx.effectiveText pq st <> [] ->
    exists st', run (AppTsx.send pq w1 st) st = Some st' /\
                error st' = Some (u16 "HTTP " ++ decimal status))) /\
  (Part002.fetched w2 = Response status json ->
   Part002.fetched w2' = Response status json' ->
   Part002.send w2 st = Part002.send w2' st /\
   (trim (query st) <> [] ->
    exists st', run (Part002.send w2 st) st = Some st' /\
                error st' = Some (u16 "HTTP " ++ decimal status))).
Proof.
  intros Hb Hd Hok. split; intros H1 H2; split.
  - unfold AppTsx.send. cbv zeta.
    destruct (match AppTsx.effectiveText pq st with [] => true | _ => false end
              || busy st); [reflexivity |].
    rewrite !widget_attempt_outcome. unfold widgetOutcome, fetchData.
    rewrite Hd, H1, H2, Hok. reflexivity.
  - intros Ht. rewrite (widget_send_run pq w1 st Hb Ht). unfold widgetOutcome.
    rewrite Hd, H1. unfold fetchData. rewrite Hok.
    eexists. split; [reflexivity |]. cbn [error]. now rewrite http_message.
  - unfold Part002.send.
    destruct (match trim (query st) with [] => true | _ => false end
              || busy st); [reflexivity |].
    rewrite !console_attempt_outcome. unfold consoleOutcome, fetchData.
    rewrite Hd, H1, H2, Hok. reflexivity.
  - intros Ht. rewrite (console_send_run w2 st Hb Ht). unfold consoleOutcome.
    rewrite Hd, H1. unfold fetchData. rewrite Hok.
    eexists. split; [reflexivity |]. cbn [error]. now rewrite http_message.
Qed.

(** X13: a response with status 200 whose body is the JSON value [null]
    is no failure for [send]: the widget appends an assistant entry with
    empty content and payload [null], while in the console the updater
    throws when React runs it. *)
Theorem null_body (host : Host) (pq : option jsstring) (w1 : AppTsx.World)
    (w2 : Part002.World) (st : State) :
  busy st = false -> demoMode st = false ->
  (AppTsx.effectiveText pq st <> [] ->
   AppTsx.fetched w1 = Response 200 (inr VNull) ->
   exists st',
     run (AppTsx.send pq w1 st) st = Some st' /\
     error st' = None /\
     messages st'
     = messages st
       ++ [userItem (AppTsx.effectiveText pq st);
           {| role := assistant; content := VStr []; payload := Some VNull |}]) /\
  (trim (query st) <> [] ->
   Part002.fetched w2 = Response 200 (inr VNull) ->
   run (Part002.send w2 st) st = None).
Proof.
  intros Hb Hd. split; intros Ht Hf.
  - rewrite (widget_send_run pq w1 st Hb Ht). unfold widgetOutcome.
    rewrite Hd, Hf. simpl. eexists. repeat split.
  - rewrite (console_send_run w2 st Hb Ht). unfold consoleOutcome.
    rewrite Hd, Hf. reflexivity.
Qed.

(** ** What the bubbles show *)

Lemma is_string_other (v : value) (k k' : jsstring) :
  is_string v k = true -> eqb_str k k' = false -> is_string v k' = false.
Proof.
  intros H E. apply is_string_true in H as ->. exact E.
Qed.

Lemma widget_answer_body (host : Host) (data t : value) :
  AppTsx.formatAssistantText data = Ok t ->
  answerBody data
    (AppTsx.body (AppTsx.MessageBubble
                    {| role := assistant; content := t; payload := Some data |})).
Proof.
  intros Hf. unfold answerBody, AppTsx.MessageBubble, AssistantCard, payloadOf.
  cbn [AppTsx.body role content payload andb].
  unfold AppTsx.formatAssistantText in Hf.
  destruct (is_string (get_opt data (u16 "kind")) (u16 "navigator")) eqn:Kn.
  - rewrite (is_string_other _ _ (u16 "summary_prompt") Kn) by (vm_compute; reflexivity).
    rewrite (is_string_other _ _ (u16 "error") Kn) by (vm_compute; reflexivity).
    apply is_string_true in Kn. apply kind_is_object in Kn as [props ->].
    simpl. auto.
  - destruct (is_string (get_opt data (u16 "kind")) (u16 "trustbot")) eqn:Kt.
    + rewrite (is_string_other _ _ (u16 "summary_prompt") Kt) by (vm_compute; reflexivity).
      rewrite (is_string_other _ _ (u16 "error") Kt) by (vm_compute; reflexivity).
      apply is_string_true in Kt. apply kind_is_object in Kt as [props ->].
      simpl. auto.
    + injection Hf as <-.
      destruct (truthy data); simpl; [| tauto].
      destruct (is_string _ (u16 "summary_prompt")); simpl; [tauto |].
      destruct (is_string _ (u16 "error")); tauto.
Qed.

Lemma console_answer_body (host : Host) (data t : value) :
  Part002.formatAssistantText data = Ok t ->
  answerBody data
    (Part002.body (Part002.MessageBubble
                     {| role := assistant; content := t; payload := Some data |})).
Proof.
  intros Hf. unfold answerBody, Part002.MessageBubble, AssistantCard, payloadOf.
  cbn [Part002.body role content payload andb].
  unfold Part002.formatAssistantText in Hf.
  assert (E : get data (u16 "kind") = Ok (get_opt data (u16 "kind"))).
  { destruct data; try reflexivity; discriminate Hf. }
  rewrite E in Hf. cbn [bind] in Hf.
  destruct (is_string (get_opt data (u16 "kind")) (u16 "navigator")) eqn:Kn.
  - rewrite (is_string_other _ _ (u16 "error") Kn) by (vm_compute; reflexivity).
    apply is_string_true in Kn. apply kind_is_object in Kn as [props ->].
    simpl. auto.
  - destruct (is_string (get_opt data (u16 "kind")) (u16 "trustbot")) eqn:Kt.
    + rewrite (is_string_other _ _ (u16 "error") Kt) by (vm_compute; reflexivity).
      apply is_string_true in Kt. apply kind_is_object in Kt as [props ->].
      simpl. auto.
    + injection Hf as <-.
      destruct (truthy data); simpl; [| tauto].
      destruct (is_string _ (u16 "error")); tauto.
Qed.

(** X14: the text [formatAssistantText] computes for an answer is shown
    by no bubble unless it is empty: the bubble of an assistant entry that
    carries a payload and the text formatted from it shows the kind-specific
    card built from the payload, or an empty text (alone, or beside the raw
    dump of the payload). *)
Theorem formatted_text_not_shown (host : Host) (data t : value) :
  (AppTsx.formatAssistantText data = Ok t ->
   answerBody data
     (AppTsx.body (AppTsx.MessageBubble
                     {| role := assistant; content := t; payload := Some data |}))) /\
  (Part002.formatAssistantText data = Ok t ->
   answerBody data
     (Part002.body (Part002.MessageBubble
                      {| role := assistant; content := t; payload := Some data |}))).
Proof.
  split; [apply widget_answer_body | apply console_answer_body].
Qed.

Lemma widget_appended (host : Host) (pq : option jsstring) (w : AppTsx.World)
    (st : State) :
  busy st = false -> AppTsx.effectiveText pq st <> [] ->
  appended (AppTsx.send pq w st)
  = userItem (AppTsx.effectiveText pq st)
    :: match widgetOutcome (AppTsx.effectiveText pq st) w st with
       | inl _ => [errorItem]
       | inr data =>
           match AppTsx.formatAssistantText data with
           | Ok t =>
               {| role := assistant; content := t; payload := Some data |}
               :: (if is_string (get_opt data (u16 "kind")) (u16 "navigator")
                   then [AppTsx.summaryPrompt] else [])
           | TypeError => []
           end
       end.
Proof.
  intros Hb Ht. rewrite (widget_send_passes pq w st Hb Ht), widget_attempt_outcome.
  destruct (widgetOutcome _ w st) as [e | data]; [reflexivity |].
  unfold AppTsx.onData.
  destruct (AppTsx.formatAssistantText data); simpl;
    [now rewrite app_nil_r | reflexivity].
Qed.

Lemma console_appended (host : Host) (w : Part002.World) (st : State) :
  busy st = false -> trim (query st) <> [] ->
  appended (Part002.send w st)
  = userItem (trim (query st))
    :: match consoleOutcome (trim (query st)) w st with
       | inl _ => [errorItem]
       | inr data =>
           match Part002.formatAssistantText data with
           | Ok t => [{| role := assistant; content := t; payload := Some data |}]
           | TypeError => []
           end
       end.
Proof.
  intros Hb Ht. rewrite (console_send_passes w st Hb Ht), console_attempt_outcome.
  destruct (consoleOutcome _ w st) as [e | data]; [reflexivity |].
  unfold Part002.onData.
  destruct (Part002.formatAssistantText data); reflexivity.
Qed.

Lemma widget_body_known (data t : value) :
  get_opt data (u16 "kind") = str "navigator" \/
  get_opt data (u16 "kind") = str "trustbot" ->
  forall f p,
    AppTsx.body (AppTsx.MessageBubble
                   {| role := assistant; content := t; payload := Some data |})
    <> inl (RawDump f p).
Proof.
  intros Hk f p. unfold AppTsx.MessageBubble, AssistantCard, payloadOf.
  cbn [AppTsx.body role content payload andb].
  destruct Hk as [Hk | Hk]; rewrite Hk;
    destruct (truthy data); vm_compute; discriminate.
Qed.

Lemma console_body_known (data t : value) :
  get_opt data (u16 "kind") = str "navigator" \/
  get_opt data (u16 "kind") = str "trustbot" ->
  forall f p,
    Part002.body (Part002.MessageBubble
                    {| role := assistant; content := t; payload := Some data |})
    <> inl (RawDump f p).
Proof.
  intros Hk f p. unfold Part002.MessageBubble, AssistantCard, payloadOf.
  cbn [Part002.body role content payload andb].
  destruct Hk as [Hk | Hk]; rewrite Hk;
    destruct (truthy data); vm_compute; discriminate.
Qed.

Lemma console_mock_known (q : jsstring) (pref : PipelinePref) (id now : jsstring) :
  get_opt (Part002.mockResponse q pref id now) (u16 "kind") = str "navigator" \/
  get_opt (Part002.mockResponse q pref id now) (u16 "kind") = str "trustbot".
Proof.
  rewrite console_mock_kind.
  destruct (match pref with trustbot => true | _ => false end
            || test Part002.reTrust q); auto.
Qed.

Lemma widget_dump_unknown (host : Host) (data t f p : value) :
  AppTsx.formatAssistantText data = Ok t ->
  AppTsx.body (AppTsx.MessageBubble
                 {| role := assistant; content := t; payload := Some data |})
  = inl (RawDump f p) ->
  Some data = Some p /\ f = VStr [] /\ knownKind p = false.
Proof.
  intros Hf Hbody. pose proof (widget_answer_body host data t Hf) as Ha.
  rewrite Hbody in Ha. unfold answerBody in Ha.
  destruct Ha as [Ha | [Ha | [Ha | [Ha | Ha]]]]; try discriminate Ha.
  injection Ha as -> ->. repeat split.
  revert Hbody. unfold AppTsx.MessageBubble, AssistantCard, payloadOf, knownKind.
  cbn [AppTsx.body role content payload andb].
  destruct (truthy data); cbn [andb negb orb]; [| discriminate].
  destruct (is_string _ (u16 "summary_prompt")); cbn [andb negb orb]; [discriminate |].
  destruct (is_string _ (u16 "error")); cbn [andb negb orb]; [discriminate |].
  destruct (is_string _ (u16 "navigator")); cbn [andb negb orb]; [discriminate |].
  destruct (is_string _ (u16 "trustbot")); [discriminate | reflexivity].
Qed.

Lemma console_dump_unknown (host : Host) (data t f p : value) :
  Part002.formatAssistantText data = Ok t ->
  Part002.body (Part002.MessageBubble
                  {| role := assistant; content := t; payload := Some data |})
  = inl (RawDump f p) ->
  Some data = Some p /\ f = VStr [] /\ knownKind p = false.
Proof.
  intros Hf Hbody. pose proof (console_answer_body host data t Hf) as Ha.
  rewrite Hbody in Ha. unfold answerBody in Ha.
  destruct Ha as [Ha | [Ha | [Ha | [Ha | Ha]]]]; try discriminate Ha.
  injection Ha as -> ->. repeat split.
  revert Hbody. unfold Part002.MessageBubble, AssistantCard, payloadOf, knownKind.
  cbn [Part002.body role content payload andb].
  destruct (truthy data); cbn [andb negb orb]; [| discriminate].
  destruct (is_string _ (u16 "error")); cbn [andb negb orb]; [discriminate |].
  destruct (is_string _ (u16 "navigator")); cbn [andb negb orb]; [discriminate |].
  destruct (is_string _ (u16 "trustbot")); [discriminate | reflexivity].
Qed.

Lemma fixed_entries_no_dump (t f p : value) (text : jsstring) :
  AppTsx.body (AppTsx.MessageBubble (userItem text)) <> inl (RawDump f p) /\
  AppTsx.body (AppTsx.MessageBubble errorItem) <> inl (RawDump f p) /\
  AppTsx.body (AppTsx.MessageBubble AppTsx.summaryPrompt) <> inl (RawDump f p) /\
  Part002.body (Part002.MessageBubble (userItem text)) <> inl (RawDump f p) /\
  Part002.body (Part002.MessageBubble errorItem) <> inl (RawDump f p).
Proof.
  repeat split; try discriminate; vm_compute; discriminate.
Qed.

(** X15: among the entries a [send] appends, only the answer to a live
    request whose payload has none of the kinds "error", "navigator" and
    "trustbot" is rendered as a raw dump; the dump is that payload and the
    text beside it is empty.  The user entry, the error entry, the
    follow-up entry and every demo answer are never rendered as a dump. *)
Theorem raw_dump_only_for_unknown_kind (host : Host) (pq : option jsstring)
    (w1 : AppTsx.World) (w2 : Part002.World) (st : State) (item : ChatItem)
    (f p : value) :
  (In item (appended (AppTsx.send pq w1 st)) ->
   AppTsx.body (AppTsx.MessageBubble item) = inl (RawDump f p) ->
   demoMode st = false /\ payload item = Some p /\ f = VStr [] /\
   knownKind p = false) /\
  (In item (appended (Part002.send w2 st)) ->
   Part002.body (Part002.MessageBubble item) = inl (RawDump f p) ->
   demoMode st = false /\ payload item = Some p /\ f = VStr [] /\
   knownKind p = false).
Proof.
  destruct (fixed_entries_no_dump VUndefined f p (AppTsx.effectiveText pq st))
    as (U1 & E1 & S1 & _ & _).
  destruct (fixed_entries_no_dump VUndefined f p (trim (query st)))
    as (_ & _ & _ & U2 & E2).
  split.
  - destruct (busy st) eqn:Hb;
      [rewrite (widget_send_guarded pq w1 st (or_introl Hb)); intros [] |].
    destruct (list_eq_dec N.eq_dec (AppTsx.effectiveText pq st) []) as [Ht | Ht];
      [rewrite (widget_send_guarded pq w1 st (or_intror Ht)); intros [] |].
    rewrite (widget_appended host pq w1 st Hb Ht).
    unfold widgetOutcome. intros [<- | Hin]; [intros H; now apply U1 in H |].
    destruct (demoMode st) eqn:Hd.
    + destruct (widget_mock_formats host (AppTsx.effectiveText pq st)
                                    (AppTsx.genId w1)) as [t Hf].
      rewrite Hf in Hin.
      destruct Hin as [<- | Hin].
      * intros H. now apply widget_body_known in H; [| left; apply widget_mock_kind].
      * destruct (is_string _ _); [| destruct Hin].
        destruct Hin as [<- | []]. intros H. now apply S1 in H.
    + destruct (fetchData (AppTsx.fetched w1)) as [e | data].
      { destruct Hin as [<- | []]. intros H. now apply E1 in H. }
      destruct (AppTsx.formatAssistantText data) as [t|] eqn:Hf; [| destruct Hin].
      destruct Hin as [<- | Hin].
      * intros H. split; [reflexivity |]. now apply (widget_dump_unknown host data t).
      * destruct (is_string _ _); [| destruct Hin].
        destruct Hin as [<- | []]. intros H. now apply S1 in H.
  - destruct (busy st) eqn:Hb;
      [rewrite (console_send_guarded w2 st (or_introl Hb)); intros [] |].
    destruct (list_eq_dec N.eq_dec (trim (query st)) []) as [Ht | Ht];
      [rewrite (console_send_guarded w2 st (or_intror Ht)); intros [] |].
    rewrite (console_appended host w2 st Hb Ht).
    unfold consoleOutcome. intros [<- | Hin]; [intros H; now apply U2 in H |].
    destruct (demoMode st) eqn:Hd.
    + destruct (console_mock_formats host (trim (query st)) (pipelinePref st)
                                     (Part002.genId w2) (Part002.now w2)) as [t Hf].
      rewrite Hf in Hin. destruct Hin as [<- | []].
      intros H. now apply console_body_known in H; [| apply console_mock_known].
    + destruct (fetchData (Part002.fetched w2)) as [e | data].
      { destruct Hin as [<- | []]. intros H. now apply E2 in H. }
      destruct (Part002.formatAssistantText data) as [t|] eqn:Hf; [| destruct Hin].
      destruct Hin as [<- | []].
      intros H. split; [reflexivity |]. now apply (console_dump_unknown host data t).
Qed.

(** ** Which queries the demo responders single out *)

Section Routing.

#[local] Hint Constructors lang : core.

Lemma lang_star_digits (w : jsstring) :
  lang (Star Digit) w <-> forallb isDigit w = true.
Proof.
  split.
  - intros H. remember (Star Digit) as r eqn:E. revert E.
    induction H as [ | | | | | | r0 | r0 u v Hu _ Hv IHv]; intros E;
      try discriminate E.
    + reflexivity.
    + injection E as ->. apply lang_digit_inv in Hu as (x & -> & Hx).
      simpl. rewrite Hx. now apply IHv.
  - induction w as [|x w IH]; simpl; intros H; [constructor |].
    apply andb_true_iff in H as [Hx Hw].
    change (x :: w) with ([x] ++ w). constructor; [now constructor | now apply IH].
Qed.

Lemma lang_plus_digits (w : jsstring) :
  lang (Plus Digit) w <-> w <> [] /\ forallb isDigit w = true.
Proof.
  unfold Plus. split.
  - intros H. apply lang_seq_inv in H as (u & v & -> & Hu & Hv).
    apply lang_digit_inv in Hu as (x & -> & Hx).
    apply lang_star_digits in Hv. simpl. rewrite Hx. split; [discriminate | exact Hv].
  - intros [Hne H]. destruct w as [|x w]; [congruence |].
    simpl in H. apply andb_true_iff in H as [Hx Hw].
    change (x :: w) with ([x] ++ w).
    constructor; [now constructor | now apply lang_star_digits].
Qed.

Lemma canonical_percent (x : N) :
  Canonicalize x = Canonicalize 37 <-> x = 37%N.
Proof.
  unfold Canonicalize at 2. simpl. unfold Canonicalize.
  destruct ((97 <=? x)%N && (x <=? 122)%N) eqn:E.
  - apply andb_true_iff in E as [E1 E2].
    apply N.leb_le in E1. apply N.leb_le in E2. split; intros H; lia.
  - tauto.
Qed.

Lemma lang_digits_percent (w : jsstring) :
  lang (Seq (Plus Digit) (lit (u16 "%"))) w <->
  exists ds, ds <> [] /\ forallb isDigit ds = true /\ w = ds ++ u16 "%".
Proof.
  split.
  - intros H. apply lang_seq_inv in H as (u & v & -> & Hu & Hv).
    apply lang_plus_digits in Hu as [Hne Hd].
    apply lang_lit in Hv. inversion Hv as [|x c v' s' Hx Hv']; subst.
    inversion Hv'; subst. apply canonical_percent in Hx as ->.
    exists u. repeat split; assumption.
  - intros (ds & Hne & Hd & ->). constructor.
    + now apply lang_plus_digits.
    + apply lang_lit. repeat constructor.
Qed.

Lemma lang_q_digit (w : jsstring) :
  lang (Seq (lit (u16 "q")) Digit) w <->
  exists u d, w = u ++ [d] /\ sameUpToCase u (u16 "q") /\ isDigit d = true.
Proof.
  split.
  - intros H. apply lang_seq_inv in H as (u & v & -> & Hu & Hv).
    apply lang_lit in Hu. apply lang_digit_inv in Hv as (d & -> & Hd).
    now exists u, d.
  - intros (u & d & -> & Hu & Hd). constructor; [now apply lang_lit | now constructor].
Qed.

(** The aggregation pattern of the console, read as a condition on the
    query. *)
Lemma aggregation_pattern (q : jsstring) :
  test Part002.reTrust q = true <-> occursIn q aggregationWord.
Proof.
  unfold Part002.reTrust, occursIn, aggregationWord. rewrite test_alts.
  split; intros (p & w & s & E & H); exists p, w, s; (split; [exact E |]);
    revert H;
    rewrite !Exists_cons, !Exists_nil, !lang_lit, lang_q_digit, lang_digits_percent;
    tauto.
Qed.

(** X16: the widget's demo responder answers with the bereavement plan
    exactly when the query contains "die", "passed away", "bereave" or
    "death" as a substring, in any letter case and also inside a longer
    word; every other query gets the generic plan. *)
Theorem widget_mock_routing (q id : jsstring) :
  (get_opt (AppTsx.mockResponse q id) (u16 "answer")
   = str "I’m sorry for your loss. Here is a simple plan after a death:"
   <-> occursIn q bereavementWord) /\
  (get_opt (AppTsx.mockResponse q id) (u16 "answer") = str "Here’s what to do:"
   <-> ~ occursIn q bereavementWord).
Proof.
  assert (R : test AppTsx.reBereavement q = true <-> occursIn q bereavementWord).
  { rewrite bereavement_pattern. unfold occursIn, bereavementWord.
    split; intros (p & w & s & E & H); exists p, w, s; (split; [exact E |]);
      revert H; rewrite !Exists_cons, Exists_nil; tauto. }
  assert (Hne : str "I’m sorry for your loss. Here is a simple plan after a death:"
                <> str "Here’s what to do:") by (vm_compute; discriminate).
  assert (A : get_opt (AppTsx.mockResponse q id) (u16 "answer")
              = if test AppTsx.reBereavement q
                then str "I’m sorry for your loss. Here is a simple plan after a death:"
                else str "Here’s what to do:").
  { unfold AppTsx.mockResponse. cbv zeta.
    destruct (test AppTsx.reBereavement q); vm_compute; reflexivity. }
  rewrite A, <- R.
  destruct (test AppTsx.reBereavement q);
    intuition (try discriminate; try congruence).
Qed.

(** X17: the console's demo responder answers with the trustbot payload
    exactly when the preference is [trustbot] or the query contains, as a
    substring, one of the aggregation keywords in any letter case, "q"
    followed by a digit, or digits followed by "%"; in every other case,
    and only then, it answers with the navigator payload. *)
Theorem console_mock_routing (q : jsstring) (pref : PipelinePref)
    (id now : jsstring) :
  (get_opt (Part002.mockResponse q pref id now) (u16 "kind") = str "trustbot"
   <-> pref = trustbot \/ occursIn q aggregationWord) /\
  (get_opt (Part002.mockResponse q pref id now) (u16 "kind") = str "navigator"
   <-> pref <> trustbot /\ ~ occursIn q aggregationWord).
Proof.
  assert (Hne : str "navigator" <> str "trustbot") by (vm_compute; discriminate).
  rewrite console_mock_kind, <- aggregation_pattern.
  destruct pref; destruct (test Part002.reTrust q); simpl;
    intuition (try discriminate; try congruence).
Qed.

End Routing.

(** ** Class names *)

Lemma join_app (sep : jsstring) (xs ys : list jsstring) :
  xs <> [] -> ys <> [] ->
  join sep (xs ++ ys) = join sep xs ++ sep ++ join sep ys.
Proof.
  intros Hx Hy. induction xs as [|x xs IH]; [congruence |].
  destruct xs as [|x' xs].
  - simpl. destruct ys; [congruence | reflexivity].
  - change (join sep ((x :: x' :: xs) ++ ys))
      with (x ++ sep ++ join sep ((x' :: xs) ++ ys)).
    rewrite IH by discriminate.
    change (join sep (x :: x' :: xs)) with (x ++ sep ++ join sep (x' :: xs)).
    now rewrite <- !app_assoc.
Qed.

Lemma join_nonempty (sep : jsstring) (xs : list jsstring) :
  xs <> [] -> Forall (fun x => x <> []) xs -> join sep xs <> [].
Proof.
  intros Hne H. destruct xs as [|x xs]; [congruence |].
  inversion H as [|? ? Hx _]; subst.
  destruct x as [|c x]; [congruence |].
  destruct xs; simpl; discriminate.
Qed.

Lemma classes_nonempty (xs : list AppTsx.ClassArg) :
  Forall (fun x => x <> []) (map AppTsx.className (filter AppTsx.Boolean xs)).
Proof.
  induction xs as [|x xs IH]; simpl; [constructor |].
  destruct x as [[|c s] | | |]; simpl; try exact IH.
  constructor; [discriminate | exact IH].
Qed.

Lemma cx_one (s : jsstring) : AppTsx.cx [AppTsx.ClassName s] = s.
Proof. destruct s; reflexivity. Qed.

(** X18: [cx] can be nested: joining the classes of two argument lists
    gives the same string as joining the two joined strings; and [cx]
    gives the empty string exactly when every argument is falsy ([false],
    [null], [undefined] or the empty string). *)
Theorem cx_nested (xs ys : list AppTsx.ClassArg) :
  AppTsx.cx (xs ++ ys)
  = AppTsx.cx [AppTsx.ClassName (AppTsx.cx xs); AppTsx.ClassName (AppTsx.cx ys)] /\
  (AppTsx.cx xs = [] <-> forallb (fun x => negb (AppTsx.Boolean x)) xs = true).
Proof.
  assert (Hnil : forall zs,
             map AppTsx.className (filter AppTsx.Boolean zs) = [] ->
             AppTsx.cx zs = []).
  { intros zs E. unfold AppTsx.cx. now rewrite E. }
  assert (Hcons : forall zs,
             map AppTsx.className (filter AppTsx.Boolean zs) <> [] ->
             AppTsx.cx zs <> []).
  { intros zs E. unfold AppTsx.cx.
    apply join_nonempty; [exact E | apply classes_nonempty]. }
  split.
  - unfold AppTsx.cx at 1. rewrite filter_app, map_app.
    destruct (list_eq_dec (list_eq_dec N.eq_dec)
                (map AppTsx.className (filter AppTsx.Boolean xs)) []) as [EA | EA];
      destruct (list_eq_dec (list_eq_dec N.eq_dec)
                  (map AppTsx.className (filter AppTsx.Boolean ys)) []) as [EB | EB].
    + rewrite EA, EB, (Hnil xs EA), (Hnil ys EB). reflexivity.
    + rewrite EA, (Hnil xs EA). simpl app.
      fold (AppTsx.cx ys). pose proof (Hcons ys EB) as Hy.
      destruct (AppTsx.cx ys) as [|c r]; [congruence | reflexivity].
    + rewrite EB, (Hnil ys EB), app_nil_r.
      fold (AppTsx.cx xs). pose proof (Hcons xs EA) as Hx.
      destruct (AppTsx.cx xs) as [|c r]; [congruence | reflexivity].
    + rewrite join_app by assumption.
      fold (AppTsx.cx xs). fold (AppTsx.cx ys).
      pose proof (Hcons xs EA) as Hx. pose proof (Hcons ys EB) as Hy.
      destruct (AppTsx.cx xs) as [|c r]; [congruence |].
      destruct (AppTsx.cx ys) as [|c' r']; [congruence | reflexivity].
  - split.
    + intros H. induction xs as [|x xs IH]; [reflexivity |].
      simpl. destruct (AppTsx.Boolean x) eqn:Bx; simpl.
      * exfalso. revert H. apply Hcons. simpl. rewrite Bx. discriminate.
      * apply IH. unfold AppTsx.cx in *. simpl in H. now rewrite Bx in H.
    + intros H. apply Hnil. induction xs as [|x xs IH]; [reflexivity |].
      simpl in *. destruct (AppTsx.Boolean x); simpl in H; [discriminate |].
      now apply IH.
Qed.

(** ** Quick categories and the follow-up button *)



(** X20: in demo mode the "Yes, tell me the steps" button of an idle
    widget does not summarise the steps shown before: whatever the
    transcript holds, it appends the generic plan and one more follow-up
    entry. *)
Theorem follow_up_in_demo_mode (host : Host) (w : AppTsx.World) (st : State) :
  busy st = false -> demoMode st = true ->
  appended (AppTsx.onSummarise w st)
  = [userItem (u16 "Yes, tell me the steps");
     {| role := assistant;
        content := VStr (u16 "Here’s what to do:" ++ nl
                         ++ u16 "1. Check eligibility" ++ nl
                         ++ u16 "2. Prepare documents" ++ nl
                         ++ u16 "3. Apply online");
        payload := Some (AppTsx.mockResponse (u16 "Yes, tell me the steps")
                                             (AppTsx.genId w)) |};
     AppTsx.summaryPrompt].
Proof.
  intros Hb Hd. unfold AppTsx.onSummarise.
  assert (Ht : AppTsx.effectiveText (Some (u16 "Yes, tell me the steps")) st
               = u16 "Yes, tell me the steps")
    by (vm_compute; reflexivity).
  rewrite (widget_appended host _ w st Hb) by (rewrite Ht; vm_compute; discriminate).
  rewrite Ht. unfold widgetOutcome. rewrite Hd.
  rewrite widget_mock_kind.
  replace (is_string (str "navigator") (u16 "navigator")) with true
    by (vm_compute; reflexivity).
  replace (AppTsx.formatAssistantText
             (AppTsx.mockResponse (u16 "Yes, tell me the steps") (AppTsx.genId w)))
    with (Ok (VStr (u16 "Here’s what to do:" ++ nl
                    ++ u16 "1. Check eligibility" ++ nl
                    ++ u16 "2. Prepare documents" ++ nl
                    ++ u16 "3. Apply online")))
    by (vm_compute; reflexivity).
  reflexivity.
Qed.

(** ** The table and the chart of a trustbot answer *)




(** ** Instances *)




Lemma enter_after_send_is_noop_witness :
  busy liveState = false /\
  AppTsx.effectiveText None liveState <> [] /\
  exists st',
    run (@AppTsx.send plainHost None liveWorld liveState) liveState = Some st' /\
    @AppTsx.onKey plainHost (u16 "Enter") false failingWorld st' = (true, []).
Proof.
  assert (Hb : busy liveState = false) by reflexivity.
  assert (Ht : AppTsx.effectiveText None liveState <> [])
    by (vm_compute; discriminate).
  split; [exact Hb |]. split; [exact Ht |].
  destruct (run (@AppTsx.send plainHost None liveWorld liveState) liveState)
    as [st'|] eqn:E; [| exfalso; revert E; vm_compute; discriminate].
  exists st'. split; [reflexivity |].
  exact (proj1 (@enter_after_send_is_noop plainHost None liveWorld failingWorld
                  consoleWorld consoleWorld liveState st' Hb) Ht E).
Defined.

Lemma demo_send_succeeds_witness :
  busy demoTyped = false /\ demoMode demoTyped = true /\
  AppTsx.effectiveText None demoTyped <> [] /\
  trim (query demoTyped) <> [] /\
  requests (@AppTsx.send plainHost None demoWorld demoTyped)
  = [Demo (u16 "what to do when someone dies")] /\
  requests (@Part002.send plainHost consoleWorld demoTyped)
  = [Demo (u16 "what to do when someone dies")].
Proof.
  assert (Hb : busy demoTyped = false) by reflexivity.
  assert (Hd : demoMode demoTyped = true) by reflexivity.
  assert (Ht : AppTsx.effectiveText None demoTyped <> [])
    by (vm_compute; discriminate).
  assert (Hq : trim (query demoTyped) <> []) by (vm_compute; discriminate).
  split; [exact Hb |]. split; [exact Hd |]. split; [exact Ht |].
  split; [exact Hq |].
  destruct (demo_send_succeeds plainHost None demoWorld consoleWorld demoTyped
                               Hb Hd) as [Hw Hc].
  destruct (Hw Ht) as [R1 _]. destruct (Hc Hq) as [R2 _].
  split; [rewrite R1 | rewrite R2]; vm_compute; reflexivity.
Defined.

Lemma bad_status_body_ignored_witness :
  busy liveState = false /\ demoMode liveState = false /\ ok 500 = false /\
  AppTsx.fetched failingWorld
  = Response 500 (inl {| message := u16 "Unexpected token" |}) /\
  AppTsx.fetched failingWorld' = Response 500 (inr tablePayload) /\
  @AppTsx.send plainHost None failingWorld liveState
  = @AppTsx.send plainHost None failingWorld' liveState.
Proof.
  assert (Hb : busy liveState = false) by reflexivity.
  assert (Hd : demoMode liveState = false) by reflexivity.
  assert (Hok : ok 500 = false) by reflexivity.
  assert (F1 : AppTsx.fetched failingWorld
               = Response 500 (inl {| message := u16 "Unexpected token" |}))
    by reflexivity.
  assert (F2 : AppTsx.fetched failingWorld' = Response 500 (inr tablePayload))
    by reflexivity.
  split; [exact Hb |]. split; [exact Hd |]. split; [exact Hok |].
  split; [exact F1 |]. split; [exact F2 |].
  exact (proj1 (proj1 (bad_status_body_ignored plainHost None failingWorld
                         failingWorld' consoleWorld consoleWorld' liveState 500
                         (inl {| message := u16 "Unexpected token" |})
                         (inr tablePayload) Hb Hd Hok) F1 F2)).
Defined.

Lemma null_body_witness :
  busy liveState = false /\ demoMode liveState = false /\
  trim (query liveState) <> [] /\
  Part002.fetched consoleNullWorld = Response 200 (inr VNull) /\
  run (@Part002.send plainHost consoleNullWorld liveState) liveState = None.
Proof.
  assert (Hb : busy liveState = false) by reflexivity.
  assert (Hd : demoMode liveState = false) by reflexivity.
  assert (Hq : trim (query liveState) <> []) by (vm_compute; discriminate).
  assert (F : Part002.fetched consoleNullWorld = Response 200 (inr VNull))
    by reflexivity.
  split; [exact Hb |]. split; [exact Hd |]. split; [exact Hq |].
  split; [exact F |].
  exact (proj2 (null_body plainHost None nullWorld consoleNullWorld liveState
                  Hb Hd) Hq F).
Defined.

Lemma formatted_text_not_shown_witness :
  @AppTsx.formatAssistantText plainHost tablePayload = Ok (str "42 licences.") /\
  answerBody tablePayload
    (AppTsx.body (AppTsx.MessageBubble
                    {| role := assistant; content := str "42 licences.";
                       payload := Some tablePayload |})).
Proof.
  assert (Hf : @AppTsx.formatAssistantText plainHost tablePayload
               = Ok (str "42 licences.")) by (vm_compute; reflexivity).
  split; [exact Hf |].
  exact (proj1 (formatted_text_not_shown plainHost tablePayload
                  (str "42 licences.")) Hf).
Defined.

Lemma raw_dump_only_for_unknown_kind_witness :
  In {| role := assistant; content := VStr []; payload := Some unknownPayload |}
     (appended (@AppTsx.send plainHost None unknownWorld liveState)) /\
  AppTsx.body (AppTsx.MessageBubble
                 {| role := assistant; content := VStr [];
                    payload := Some unknownPayload |})
  = inl (RawDump (VStr []) unknownPayload) /\
  knownKind unknownPayload = false.
Proof.
  assert (Hin : In {| role := assistant; content := VStr [];
                      payload := Some unknownPayload |}
                   (appended (@AppTsx.send plainHost None unknownWorld liveState)))
    by (vm_compute; auto).
  assert (Hbody : AppTsx.body (AppTsx.MessageBubble
                                 {| role := assistant; content := VStr [];
                                    payload := Some unknownPayload |})
                  = inl (RawDump (VStr []) unknownPayload))
    by (vm_compute; reflexivity).
  split; [exact Hin |]. split; [exact Hbody |].
  apply (proj1 (raw_dump_only_for_unknown_kind plainHost None unknownWorld
                  consoleWorld liveState _ (VStr []) unknownPayload) Hin Hbody).
Defined.


Lemma follow_up_in_demo_mode_witness :
  busy demoState = false /\ demoMode demoState = true /\
  In AppTsx.summaryPrompt (appended (@AppTsx.onSummarise plainHost demoWorld demoState)).
Proof.
  assert (Hb : busy demoState = false) by reflexivity.
  assert (Hd : demoMode demoState = true) by reflexivity.
  split; [exact Hb |]. split; [exact Hd |].
  rewrite (follow_up_in_demo_mode plainHost demoWorld demoState Hb Hd).
  right. right. left. reflexivity.
Defined.

